(** * quote_hd5: the HD5 stock-quote store of [quote_hd5.py]

    A shallow embedding of class [QuoteHD5]: the per-market files with
    their three groups and [LAST_UPDATE] attributes, the append loop
    [_append_quote], [sort_hd5], [extract] and [get_lostdate], followed by
    the properties of these operations. *)

From Stdlib Require Import ZArith Ascii String DecimalString.
From stdpp Require Import base gmap strings list sorting.

Local Open Scope string_scope.
Local Open Scope Z_scope.

(** ** Exceptions and the store monad *)

(** The Python exceptions the modelled code can raise. *)
Inductive exn : Type :=
  | KeyError | NameError | ValueError | TypeError | IndexError
  | NoSuchNodeError | AttributeError.

Global Instance exn_eq_dec : EqDecision exn.
Proof. solve_decision. Defined.

(** Outcome of a method body: a value, or an exception leaving the frame. *)
Inductive res (A : Type) : Type :=
  | Val (a : A)
  | Exc (e : exn).
Arguments Val {A} a.
Arguments Exc {A} e.

(** ** Codes and the module constants *)

Definition ascii_upper (c : ascii) : ascii :=
  let n := nat_of_ascii c in
  if Nat.leb 97 n && Nat.leb n 122 then ascii_of_nat (n - 32) else c.

(** [str.upper] on byte strings. *)
Fixpoint upper (s : string) : string :=
  match s with
  | EmptyString => EmptyString
  | String c s' => String (ascii_upper c) (upper s')
  end.

(** [code[:2]] *)
Definition prefix2 (code : string) : string := substring 0 2 code.

(** [len(code)] *)
Definition len (code : string) : Z := Z.of_nat (String.length code).

Definition MK_SH : string := "SH".
Definition MK_SZ : string := "SZ".
Definition MARKETS : list string := ["SH"; "SZ"].

(** [MK_INDEX={'SH':'SH000001','SZ':'SZ399001'}] *)
Definition MK_INDEX : gmap string string :=
  <["SH" := "SH000001"]> (<["SZ" := "SZ399001"]> ∅).

(** [MK_INDEX.values()] *)
Definition MK_INDEX_values : list string := ["SH000001"; "SZ399001"].

(** The three data types ([TYPE_HD5]); each names one group of a file. *)
Inductive DataType : Type := TYPE_DAILY | TYPE_MIN5 | TYPE_SPLITS.

Definition TYPE_HD5 : list DataType := [TYPE_DAILY; TYPE_MIN5; TYPE_SPLITS].

Definition TYPE2GRP (t : DataType) : string :=
  match t with
  | TYPE_DAILY => "/DAILY"
  | TYPE_MIN5 => "/MIN5"
  | TYPE_SPLITS => "/SPLITS"
  end.

Definition TYPE2EXPECTEDROW (t : DataType) : Z :=
  match t with
  | TYPE_DAILY => 10000
  | TYPE_MIN5 => 10000
  | TYPE_SPLITS => 200
  end.

Global Instance DataType_eq_dec : EqDecision DataType.
Proof. solve_decision. Defined.

(** ** Rows

    [DescQuote] and [DescSPLITS] are the two table descriptions.  Column 0
    is [time] (seconds since 1970-01-01).  The remaining columns are kept in
    description order; a [Float32Col] value is represented by an integer
    that orders as the stored number does (finite prices and ratios; NaN and
    the sign of zero are outside the model). *)
Inductive Row : Type :=
  | DescQuote (time open high low close vol sum : Z)
  | DescSPLITS (time sd ss ssp cd : Z).

(** [row['time']], also [row[0]] *)
Definition time (r : Row) : Z :=
  match r with
  | DescQuote t _ _ _ _ _ _ => t
  | DescSPLITS t _ _ _ _ => t
  end.

(** The columns of a row in description order ([pos=0], [pos=1], ...). *)
Definition columns (r : Row) : list Z :=
  match r with
  | DescQuote t o h l c v s => [t; o; h; l; c; v; s]
  | DescSPLITS t sd ss ssp cd => [t; sd; ss; ssp; cd]
  end.

Global Instance Row_eq_dec : EqDecision Row.
Proof. solve_decision. Defined.

(** ** The store

    [HD5 file structure]: a root with attribute [LAST_UPDATE] and the three
    groups [/DAILY], [/MIN5], [/SPLITS]; each group has its own
    [LAST_UPDATE] and one table per code. *)
Record Group : Type := mkGroup {
  LAST_UPDATE : string;
  tables : gmap string (list Row)
}.

Record File : Type := mkFile {
  root_LAST_UPDATE : string;
  DAILY : Group;
  MIN5 : Group;
  SPLITS : Group
}.

(** [fp.getNode(TYPE2GRP[data_type])] *)
Definition getGroup (t : DataType) (fp : File) : Group :=
  match t with
  | TYPE_DAILY => DAILY fp
  | TYPE_MIN5 => MIN5 fp
  | TYPE_SPLITS => SPLITS fp
  end.

Definition setGroup (t : DataType) (g : Group) (fp : File) : File :=
  match t with
  | TYPE_DAILY => mkFile (root_LAST_UPDATE fp) g (MIN5 fp) (SPLITS fp)
  | TYPE_MIN5 => mkFile (root_LAST_UPDATE fp) (DAILY fp) g (SPLITS fp)
  | TYPE_SPLITS => mkFile (root_LAST_UPDATE fp) (DAILY fp) (MIN5 fp) g
  end.

Definition set_root_LAST_UPDATE (s : string) (fp : File) : File :=
  mkFile s (DAILY fp) (MIN5 fp) (SPLITS fp).

Definition set_LAST_UPDATE (s : string) (g : Group) : Group :=
  mkGroup s (tables g).

Definition set_table (code : string) (rows : list Row) (g : Group) : Group :=
  mkGroup (LAST_UPDATE g) (<[code := rows]> (tables g)).

(** [self._hd5fp]: the open files, keyed by market.  [__init__] leaves a
    market out when its file does not exist. *)
Abbreviation DB := (gmap string File).

(** A method of [QuoteHD5]: it runs on the open files, may change them, and
    returns or raises.  What was written before a raise stays written. *)
Definition M (A : Type) : Type := DB → res A * DB.

Definition raise {A} (e : exn) : M A := λ db, (Exc e, db).
Definition get_db : M DB := λ db, (Val db, db).

Global Instance M_ret : MRet M := λ A a db, (Val a, db).
Global Instance M_bind : MBind M := λ A B k m db,
  match m db with
  | (Val a, db') => k a db'
  | (Exc e, db') => (Exc e, db')
  end.

(** [for x in l: acc = body(acc, x)], stopping at the first raise. *)
Fixpoint for_each {A S} (body : S → A → M S) (acc : S) (l : list A) : M S :=
  match l with
  | [] => mret acc
  | x :: l' => acc' ← body acc x; for_each body acc' l'
  end.

(** [self._hd5fp[mk]] *)
Definition hd5fp (mk : string) : M File :=
  λ db, match db !! mk with
        | Some fp => (Val fp, db)
        | None => (Exc KeyError, db)
        end.

(** [create_hd5]: a new file with the three groups and blank attributes. *)
Definition create_hd5 : File :=
  let blank := mkGroup EmptyString ∅ in
  mkFile EmptyString blank blank blank.

(** ** The [tools] module

    [from tools import *] brings in the date helpers; [tools] is not part
    of this file, so its functions are the methods of a class.
    [tools_NoSuchNodeError] tells whether the star import binds the bare
    name [NoSuchNodeError], which [get_lostdate] refers to. *)
Class Tools : Type := {
  dtstr2num : string → Z;
  dtnum2str : Z → string;
  get_workingdays : string → string → list string;
  tools_NoSuchNodeError : bool
}.

(** ** String formatting with [%]

    [fmt % args] for string arguments.  After a [%] the flags, width,
    precision and length characters are skipped; then [s] and [r] take the
    next argument, [%] stands for itself, a numeric conversion refuses a
    string, and any other character is an unsupported format character. *)
Definition is_spec_modifier (c : ascii) : bool :=
  bool_decide (c ∈ list_ascii_of_string "#0- +123456789.*hlL").

Definition is_numeric_conversion (c : ascii) : bool :=
  bool_decide (c ∈ list_ascii_of_string "diouxXeEfFgGc").

Fixpoint pyformat_aux (in_spec : bool) (fmt : string) (args : list string)
    : res string :=
  match fmt with
  | EmptyString =>
      if in_spec then Exc ValueError          (* incomplete format *)
      else match args with
           | [] => Val EmptyString
           | _ :: _ => Exc TypeError          (* not all arguments converted *)
           end
  | String c fmt' =>
      if in_spec then
        if is_spec_modifier c then pyformat_aux true fmt' args
        else if bool_decide (c = "s"%char ∨ c = "r"%char) then
          match args with
          | [] => Exc TypeError               (* not enough arguments *)
          | a :: args' =>
              match pyformat_aux false fmt' args' with
              | Val out => Val (a +:+ out)
              | Exc e => Exc e
              end
          end
        else if bool_decide (c = "%"%char) then
          match pyformat_aux false fmt' args with
          | Val out => Val (String c out)
          | Exc e => Exc e
          end
        else if is_numeric_conversion c then Exc TypeError
        else Exc ValueError                   (* unsupported format character *)
      else if bool_decide (c = "%"%char) then pyformat_aux true fmt' args
      else match pyformat_aux false fmt' args with
           | Val out => Val (String c out)
           | Exc e => Exc e
           end
  end.

Definition pyformat (fmt : string) (args : list string) : res string :=
  pyformat_aux false fmt args.

(** [fp.getNode(TYPE2GRP[t], name=code)] *)
Definition getNode (fp : File) (t : DataType) (code : string)
    : res (list Row) :=
  match tables (getGroup t fp) !! code with
  | Some tbl => Val tbl
  | None => Exc NoSuchNodeError
  end.

(** ** Single-table and attribute writes through a file handle

    A handle [fp = self._hd5fp[mk]] aliases the open file: a write through
    it is a write to the entry of [mk]. *)

(** [fp.getNode(grp, name=code)], or [fp.createTable(...)] when the node
    does not exist, followed by [tbl.append(rows)] and [tbl.flush()]. *)
Definition tbl_append (mk : string) (t : DataType) (code : string)
    (rows : list Row) : M unit :=
  λ db, (Val tt,
         alter (λ fp,
                  let grp := getGroup t fp in
                  let tbl := default [] (tables grp !! code) in
                  setGroup t (set_table code (tbl ++ rows)%list grp) fp)
               mk db).

(** The stored rows of table [code] become [rows]. *)
Definition tbl_write (mk : string) (t : DataType) (code : string)
    (rows : list Row) : M unit :=
  λ db, (Val tt,
         alter (λ fp, setGroup t (set_table code rows (getGroup t fp)) fp)
               mk db).

(** [grp._v_attrs.LAST_UPDATE = tmp] for the group of [t] *)
Definition set_group_attr (mk : string) (t : DataType) (tmp : string)
    : M unit :=
  λ db, (Val tt,
         alter (λ fp, setGroup t (set_LAST_UPDATE tmp (getGroup t fp)) fp)
               mk db).

(** [fp.root._v_attrs.LAST_UPDATE = tmp] *)
Definition set_root_attr (mk : string) (tmp : string) : M unit :=
  λ db, (Val tt, alter (set_root_LAST_UPDATE tmp) mk db).

(** ** Sorting rows

    [rows.sort(order='time')] on a record array compares [time] first and
    then the remaining fields in description order to break ties.  [time]
    is column 0, so this is the lexicographic order of the columns. *)
Fixpoint lex_leb (a b : list Z) : bool :=
  match a, b with
  | [], _ => true
  | _ :: _, [] => false
  | x :: a', y :: b' =>
      if x <? y then true else if y <? x then false else lex_leb a' b'
  end.

Definition row_le (r1 r2 : Row) : Prop := lex_leb (columns r1) (columns r2).

Global Instance row_le_dec : RelDecision row_le.
Proof. intros r1 r2. unfold row_le. apply _. Defined.

Definition np_sort (rows : list Row) : list Row := merge_sort row_le rows.

(** [slice(start, stop, 1).indices(nrows)] *)
Definition slice_indices (start stop nrows : Z) : Z * Z :=
  let clip (i : Z) := if i <? 0 then Z.max 0 (i + nrows) else Z.min i nrows in
  (clip start, clip stop).

Definition nrows (tbl : list Row) : Z := Z.of_nat (length tbl).

(** [tbl.modifyRows(start, stop, rows=rows)] with step 1: the rows of the
    slice [start:stop] are overwritten, in place, by the leading rows of
    [rows].  A negative [stop] counts from the end, as in every slice. *)
Definition modifyRows (tbl : list Row) (start stop : Z) (rows : list Row)
    : res (list Row) :=
  if start <? 0 then Exc ValueError
  else
    let '(start', stop') := slice_indices start stop (nrows tbl) in
    if nrows tbl <? stop' then Exc IndexError
    else
      let n := Z.max 0 (stop' - start') in
      if nrows rows <? n then Exc ValueError
      else if nrows tbl <? start' + nrows rows then Exc IndexError
      else
        let k := Z.to_nat (Z.min (nrows rows) n) in
        Val (take (Z.to_nat start') tbl ++ take k rows
             ++ drop (Z.to_nat start' + k) tbl)%list.

(** The stored rows of [code] in group [t] of market [mk]. *)
Definition table_of (db : DB) (mk : string) (t : DataType) (code : string)
    : option (list Row) :=
  fp ← db !! mk; tables (getGroup t fp) !! code.

(** Every market of [MARKETS] has its file open. *)
Definition stores_open (db : DB) : Prop :=
  ∀ mk, mk ∈ MARKETS → is_Some (db !! mk).

(** The file after [tbl.append(rows)] on the table of [code]. *)
Definition appended (data_type : DataType) (code : string) (rows : list Row)
    (fp : File) : File :=
  let grp := getGroup data_type fp in
  setGroup data_type
    (set_table code (default [] (tables grp !! code) ++ rows)%list grp) fp.

Section Engine.
Context `{Tools}.

(** *** [_append_quote] *)

(** [start = dtstr2num(lupdate) if lupdate else 0] *)
Definition start_of (lupdate : string) : Z :=
  if decide (lupdate = EmptyString) then 0 else dtstr2num lupdate.

(** [data[np.where(data['time'] >= start)]] *)
Definition rows_from (start : Z) (data : list Row) : list Row :=
  filter (λ r, start ≤ time r) data.

(** One turn of [for code, data in data_source]; [count] is the pair
    [count[0], count[1]].  [continue] is the early [mret]. *)
Definition append_body (data_type : DataType) (checkorder : bool)
    (count : Z * Z) (item : string * list Row) : M (Z * Z) :=
  let count := (count.1 + 1, count.2) in
  let code := upper item.1 in
  let data := item.2 in
  let mk := prefix2 code in
  if decide (mk ∉ MARKETS) then mret count
  else
    fp ← hd5fp mk;
    let grp := getGroup data_type fp in
    let lupdate := LAST_UPDATE grp in
    let start := start_of lupdate in
    let rows := if checkorder then rows_from start data else data in
    if checkorder && bool_decide (length rows < 1)%nat then mret count
    else
      tbl_append mk data_type code rows;;
      let count := (count.1, count.2 + 1) in
      if decide (code ∈ MK_INDEX_values) then
        match last rows with
        | None => raise IndexError                      (* rows[-1] *)
        | Some r =>
            let tmp := dtnum2str (time r) in
            set_group_attr mk data_type tmp;;
            set_root_attr mk tmp;;
            mret count
        end
      else mret count.

(** The rows one turn writes for a code: [rows] of [append_body]. *)
Definition written (checkorder : bool) (fp : File) (data_type : DataType)
    (data : list Row) : list Row :=
  if checkorder
  then rows_from (start_of (LAST_UPDATE (getGroup data_type fp))) data
  else data.

(** [today] is [strftime(date.today(), '%Y%m%d')].  The method logs
    [count[1]] of total [count[0]]; the model returns the pair. *)
Definition _append_quote (today : string) (data_type : DataType)
    (data_source : list (string * list Row)) (checkorder : bool)
    : M (Z * Z) :=
  count ← for_each (append_body data_type checkorder) (0, 0) data_source;
  (if decide (data_type = TYPE_SPLITS) then
     for_each (λ _ mk, _ ← hd5fp mk; set_group_attr mk TYPE_SPLITS today)
              tt MARKETS
   else mret tt);;
  mret count.

(** *** [sort_hd5] *)

(** The body run for one table node: [rows = node.read()],
    [rows.sort(order='time')], [node.modifyRows(start=0,stop=-1,rows=rows)]. *)
Definition sort_node (mk : string) (t : DataType) (code : string) : M unit :=
  fp ← hd5fp mk;
  match tables (getGroup t fp) !! code with
  | None => mret tt
  | Some tbl =>
      let rows := np_sort tbl in
      match modifyRows tbl 0 (-1) rows with
      | Exc e => raise e
      | Val tbl' => tbl_write mk t code tbl'
      end
  end.

(** [fp.name]: an open file carries [filename] (read by [close] and
    [get_lastupdate]), [title], [mode] and [root]; it has no attribute
    [name], so reading it raises. *)
Definition File_name (fp : File) : res string := Exc AttributeError.

(** [for fp in self._hd5fp.values():].  The log line
    ['Start sort %s' %fp.name] is formatted first, at any log level; then
    [for node in fp.walkNodes(): ...], where only table nodes pass the
    [isinstance] test. *)
Definition sort_hd5 : M unit :=
  db ← get_db;
  for_each (λ _ (entry : string * File),
    match File_name entry.2 with
    | Exc e => raise e
    | Val _ =>
        for_each (λ _ t,
          for_each (λ _ (node : string * list Row),
                      sort_node entry.1 t node.1)
                   tt (map_to_list (tables (getGroup t entry.2))))
          tt TYPE_HD5
    end)
    tt (map_to_list db).

(** *** [read] *)
Definition read (code : string) (db_type : DataType)
    : M (option (list Row)) :=
  fp ← hd5fp (upper (prefix2 code));
  mret (tables (getGroup db_type fp) !! upper code).

(** *** [extract] *)

(** The [for grp in TYPE2GRP.values()] loop for one code: a table missing
    in the source raises [NoSuchNodeError], which is caught and skipped. *)
Definition extract_group (src_fp : File) (code : string)
    (acc : File * (Z * Z)) (grp : DataType) : File * (Z * Z) :=
  let '(dst_fp, count) := acc in
  match tables (getGroup grp src_fp) !! code with
  | None => (dst_fp, count)
  | Some src_tbl =>
      (setGroup grp (set_table code src_tbl (getGroup grp dst_fp)) dst_fp,
       (count.1, count.2 + 1))
  end.

Definition extract_body (acc : File * (Z * Z)) (code : string)
    : M (File * (Z * Z)) :=
  let '(dst_fp, count) := acc in
  let code := upper code in
  if decide (prefix2 code ∉ MARKETS ∨ len code ≠ 8) then mret (dst_fp, count)
  else
    let count := (count.1 + 1, count.2) in
    src_fp ← hd5fp (prefix2 code);
    mret (foldl (extract_group src_fp code) (dst_fp, count) TYPE_HD5).

(** Returns the new file and the logged tally ([count[1]] out of
    [count[0]]); [None] when the code list is empty and nothing is made. *)
Definition extract (code_lst : list string) : M (option (File * (Z * Z))) :=
  if bool_decide (length code_lst < 1)%nat then mret None
  else
    out ← for_each extract_body (create_hd5, (0, 0)) code_lst;
    mret (Some out).

(** *** [get_lostdate] *)

(** [except (NoSuchNodeError, NameError):] for an exception [e] raised in
    the [try] block.  Matching [e] first looks up the bare name
    [NoSuchNodeError]; when [tools] does not bind it, that lookup raises
    [NameError] in place of [e].  The handler formats the log line
    ['code % not available in DB' %code] and then returns [None]. *)
Definition lostdate_except (e : exn) (code : string)
    : M (option (list string)) :=
  if tools_NoSuchNodeError then
    if decide (e = NoSuchNodeError ∨ e = NameError) then
      match pyformat "code % not available in DB" [code] with
      | Exc e' => raise e'
      | Val _ => mret None
      end
    else raise e
  else raise NameError.

Definition get_lostdate (code : option string) : M (option (list string)) :=
  let code := match code with
              | None => default EmptyString (MK_INDEX !! MK_SH)
              | Some c => upper c
              end in
  let mk := prefix2 code in
  λ db,
    let tried := match db !! mk with
                 | None => Exc KeyError
                 | Some fp => getNode fp TYPE_MIN5 code
                 end in
    match tried with
    | Exc e => lostdate_except e code db
    | Val tbl =>
        let rec_days := dtnum2str <$> (time <$> tbl) in
        match head tbl, last tbl with
        | Some r0, Some rn =>
            let work_days :=
              get_workingdays (dtnum2str (time r0)) (dtnum2str (time rn)) in
            (Val (Some (filter (λ x, x ∉ rec_days) work_days)), db)
        | _, _ => (Exc IndexError, db)                 (* tbl[0] *)
        end
    end.

End Engine.

(** ** A concrete [tools] for running the model

    Dates are written as the decimal number of seconds, so that
    [dtstr2num] and [dtnum2str] are inverse to each other, and every date
    between two dates is a working day. *)
Module Sample.

Definition dtstr2num (s : string) : Z :=
  match NilZero.int_of_string s with
  | Some i => Z.of_int i
  | None => 0
  end.

Definition dtnum2str (t : Z) : string := NilZero.string_of_int (Z.to_int t).

Definition get_workingdays (first last : string) : list string :=
  dtnum2str <$> seqZ (dtstr2num first) (dtstr2num last - dtstr2num first + 1).

Definition tools : Tools :=
  Build_Tools dtstr2num dtnum2str get_workingdays true.

(** A daily bar at time [t]; the other columns are [c]. *)
Definition bar (t c : Z) : Row := DescQuote t c c c c c c.

(** [data_sh.h5] with [LAST_UPDATE] [lu] and tables [tbls] in [/DAILY]. *)
Definition sh_file (lu : string) (tbls : gmap string (list Row)) : File :=
  mkFile EmptyString (mkGroup lu tbls)
         (mkGroup EmptyString ∅) (mkGroup EmptyString ∅).

(** Both market files open, [data_sz.h5] as new. *)
Definition db_with (lu : string) (tbls : gmap string (list Row)) : DB :=
  <["SH" := sh_file lu tbls]> (<["SZ" := create_hd5]> ∅).

(** Both files as new. *)
Definition new_sh : File := sh_file EmptyString ∅.
Definition new_db : DB := db_with EmptyString ∅.

(** [data_sh.h5] with the rows [tbl] for SH600000 in [/DAILY] and in
    [/MIN5]; [data_sz.h5] is not there. *)
Definition db_two_groups (tbl : list Row) : DB :=
  let grp := mkGroup EmptyString (<["SH600000" := tbl]> ∅) in
  <["SH" := mkFile EmptyString grp grp (mkGroup EmptyString ∅)]> ∅.

End Sample.

(** ** Vocabulary for whole-store properties *)

(** Every table of [db] is still there in [db'], with its rows as a
    prefix of the rows now stored. *)
Definition tables_extend (db db' : DB) : Prop :=
  ∀ mk t code rows,
    table_of db mk t code = Some rows →
    ∃ more, table_of db' mk t code = Some (rows ++ more)%list.

(** The four [LAST_UPDATE] attributes of a file: root, [/DAILY], [/MIN5]
    and [/SPLITS]. *)
Definition attrs (fp : File) : string * string * string * string :=
  (root_LAST_UPDATE fp, LAST_UPDATE (DAILY fp), LAST_UPDATE (MIN5 fp),
   LAST_UPDATE (SPLITS fp)).

(** Same [LAST_UPDATE] attributes in every file. *)
Definition same_attrs (db db' : DB) : Prop :=
  ∀ mk, attrs <$> (db' !! mk) = attrs <$> (db !! mk).

(** The codes [extract] accepts: a market tag of [MARKETS] and 8
    characters. *)
Definition valid_code (code : string) : Prop :=
  prefix2 code ∈ MARKETS ∧ len code = 8.

Global Instance valid_code_dec code : Decision (valid_code code).
Proof. unfold valid_code. apply _. Defined.

(** The upper-cased valid codes of a request, in order. *)
Definition valid_codes (code_lst : list string) : list string :=
  filter valid_code (upper <$> code_lst).

(** The number of groups of [fp] that hold a table of [code]. *)
Definition groups_with (fp : File) (code : string) : Z :=
  Z.of_nat (length (filter
    (λ t, is_Some (tables (getGroup t fp) !! code)) TYPE_HD5)).

(** The same markets are open in both stores. *)
Definition same_open (db db' : DB) : Prop :=
  ∀ mk, is_Some (db' !! mk) ↔ is_Some (db !! mk).

(** The number of tables [extract] copies for a list of valid codes. *)
Definition copies (db : DB) (codes : list string) : Z :=
  foldr (λ code n,
           match db !! prefix2 code with
           | Some fp => groups_with fp code + n
           | None => n
           end) 0 codes.

(** The rows of a batch that an order-checked call holding the group
    cutoff of [fp] fixed writes for the code [c], batch order kept. *)
Definition kept_for `{Tools} (c : string) (fp : File)
    (data_type : DataType) (data_source : list (string * list Row))
    : list Row :=
  flat_map (λ item : string * list Row,
              if decide (upper item.1 = c)
              then written true fp data_type item.2
              else []) data_source.

(** ** Opening the files and the update from a feed directory *)

(** [hd5_fn] of [__init__]: the file name of each market. *)
Definition hd5_fn : list (string * string) :=
  [(MK_SH, "data_sh.h5"); (MK_SZ, "data_sz.h5")].

(** [__init__(hd5_path)]: [disk] holds the files found under [hd5_path],
    by name.  The result is [self._hd5fp] and [self._last_update]; a
    market whose file does not exist is left out of both. *)
Definition init (disk : gmap string File) : DB * gmap string string :=
  foldl (λ (self : DB * gmap string string) (entry : string * string),
           match disk !! entry.2 with
           | Some fp =>
               (<[entry.1 := fp]> self.1,
                <[entry.1 := root_LAST_UPDATE fp]> self.2)
           | None => self
           end)
        (∅, ∅) hd5_fn.

(** What [dad2hd5] takes from outside this file: [fpar.iter_parser],
    which gives the batches of a dad file or a false value when the file
    cannot be read; [get_workingdays] called with a start date only; and
    [os.path.join]. *)
Class Feed : Type := {
  iter_parser : string → option (list (string * list Row));
  get_workingdays_from : string → list string;
  path_join : string → string → string
}.

Section Update.
Context `{Tools} `{Feed}.

(** One dad file of a day: [if data_source: self._append_quote(...)],
    else the error is logged.  The value is [fn], the loop variable. *)
Definition dad_file (today : string) (fn : string) (data_type : DataType)
    : M (option string) :=
  match iter_parser fn with
  | Some data_source =>
      _append_quote today data_type data_source true;; mret (Some fn)
  | None => mret (Some fn)
  end.

(** [dad2hd5(dad_path)], with [self._last_update] as [last_update].  The
    last log line names [fn], which is bound only once the day loop has
    run. *)
Definition dad2hd5 (last_update : gmap string string)
    (today dad_path : string) : M unit :=
  match last_update !! MK_SH with
  | None => raise KeyError
  | Some lu =>
      let w_days := get_workingdays_from lu in
      fn ← for_each (λ (fn : option string) day,
              let dad_daily := path_join dad_path (day +:+ ".dad") in
              let dad_min := path_join dad_path (day +:+ "m.dad") in
              for_each (λ _ (src : string * DataType),
                          dad_file today src.1 src.2)
                fn [(dad_daily, TYPE_DAILY); (dad_min, TYPE_MIN5)])
            None (drop 1 w_days);
      let splits := path_join dad_path "split.pwr" in
      match iter_parser splits with
      | Some data_source =>
          _append_quote today TYPE_SPLITS data_source true;; mret tt
      | None =>
          match fn with
          | None => raise NameError
          | Some _ => mret tt
          end
      end
  end.

(** The update branch of [main]: open the files, then [dad2hd5]. *)
Definition update (disk : gmap string File) (today dad_path : string)
    : res unit * DB :=
  let self := init disk in
  dad2hd5 self.2 today dad_path self.1.

End Update.

(** ** Concrete feeds for running [dad2hd5] *)
Module SampleFeed.

(** [data_sh.h5] with the rows [tbl] for the SH index in [/MIN5]. *)
Definition db_min5 (tbl : list Row) : DB :=
  <["SH" := mkFile EmptyString (mkGroup EmptyString ∅)
              (mkGroup EmptyString (<["SH000001" := tbl]> ∅))
              (mkGroup EmptyString ∅)]>
    (<["SZ" := create_hd5]> ∅).

Definition path_join (dir name : string) : string := dir +:+ "/" +:+ name.

(** The day after [start] is the one new working day. *)
Definition get_workingdays_from (start : string) : list string :=
  [start; Sample.dtnum2str (Sample.dtstr2num start + 1)].

(** The feed directory [dad] holds the daily file of day 2 and the
    splits file. *)
Definition iter_parser (fn : string)
    : option (list (string * list Row)) :=
  if decide (fn = "dad/2.dad") then
    Some [("SH000001", [Sample.bar 2 1]); ("SH600000", [Sample.bar 2 5])]
  else if decide (fn = "dad/split.pwr") then
    Some [("SH600000", [DescSPLITS 1 1 0 0 0])]
  else None.

Definition feed : Feed :=
  Build_Feed iter_parser get_workingdays_from path_join.

(** A feed directory with no file and no new working day. *)
Definition feed_down : Feed :=
  Build_Feed (λ _, None) (λ start, [start]) path_join.

End SampleFeed.

(** * Properties *)

(** ** The per-code step of the append loop *)

Section Append.
Context `{Tools}.

Lemma bind_Val {A B} (m : M A) (k : A → M B) db a db' :
  m db = (Val a, db') → (m ≫= k) db = k a db'.
Proof. intros E. unfold mbind, M_bind. by rewrite E. Qed.

Lemma getGroup_setGroup t g fp : getGroup t (setGroup t g fp) = g.
Proof. by destruct t. Qed.

Lemma getGroup_setGroup_ne t t' g fp :
  t ≠ t' → getGroup t' (setGroup t g fp) = getGroup t' fp.
Proof. by destruct t, t'. Qed.

Lemma root_setGroup t g fp :
  root_LAST_UPDATE (setGroup t g fp) = root_LAST_UPDATE fp.
Proof. by destruct t. Qed.

Lemma length_lt_1 {A} (l : list A) : (length l < 1)%nat ↔ l = [].
Proof. destruct l; simpl; split; (done || lia). Qed.

(** A code with an unknown market tag: counted, nothing else. *)
Lemma append_body_unknown data_type checkorder count code data db :
  prefix2 (upper code) ∉ MARKETS →
  append_body data_type checkorder count (code, data) db
  = (Val (count.1 + 1, count.2), db).
Proof.
  intros Hmk. unfold append_body. simpl.
  by rewrite decide_True.
Qed.

(** Order checking on and no row at or after the cutoff: counted and left. *)
Lemma append_body_skip data_type count code data db fp :
  prefix2 (upper code) ∈ MARKETS →
  db !! prefix2 (upper code) = Some fp →
  written true fp data_type data = [] →
  append_body data_type true count (code, data) db
  = (Val (count.1 + 1, count.2), db).
Proof.
  intros Hmk Hfp Hrows. unfold append_body, written in *. simpl.
  rewrite decide_False by (intros ?; done).
  unfold mbind, M_bind, hd5fp. rewrite Hfp. simpl.
  rewrite Hrows. simpl. done.
Qed.

(** The step when rows are written, for a code that is not an index. *)
Lemma append_body_plain data_type checkorder count code data db fp :
  prefix2 (upper code) ∈ MARKETS →
  db !! prefix2 (upper code) = Some fp →
  (checkorder = true → written checkorder fp data_type data ≠ []) →
  upper code ∉ MK_INDEX_values →
  append_body data_type checkorder count (code, data) db
  = (Val (count.1 + 1, count.2 + 1),
     alter (appended data_type (upper code)
              (written checkorder fp data_type data))
           (prefix2 (upper code)) db).
Proof.
  intros Hmk Hfp Hrows Hidx. unfold append_body, written in *. simpl.
  rewrite decide_False by (intros ?; done).
  unfold mbind, M_bind, hd5fp. rewrite Hfp. simpl.
  destruct checkorder; simpl.
  - rewrite bool_decide_eq_false_2
      by (rewrite length_lt_1; by apply Hrows).
    simpl. by rewrite decide_False.
  - by rewrite decide_False.
Qed.

(** The step when rows are written, for an index code. *)
Lemma append_body_index data_type checkorder count code data db fp r :
  prefix2 (upper code) ∈ MARKETS →
  db !! prefix2 (upper code) = Some fp →
  last (written checkorder fp data_type data) = Some r →
  upper code ∈ MK_INDEX_values →
  append_body data_type checkorder count (code, data) db
  = (Val (count.1 + 1, count.2 + 1),
     alter (set_root_LAST_UPDATE (dtnum2str (time r)))
       (prefix2 (upper code))
       (alter (λ fp, setGroup data_type
                 (set_LAST_UPDATE (dtnum2str (time r)) (getGroup data_type fp))
                 fp)
          (prefix2 (upper code))
          (alter (appended data_type (upper code)
                    (written checkorder fp data_type data))
             (prefix2 (upper code)) db))).
Proof.
  intros Hmk Hfp Hlast Hidx.
  assert (Hne : written checkorder fp data_type data ≠ [])
    by (intros E; by rewrite E in Hlast).
  unfold append_body, written in *. simpl.
  rewrite decide_False by (intros ?; done).
  unfold mbind, M_bind, hd5fp. rewrite Hfp. simpl.
  destruct checkorder; simpl.
  - rewrite bool_decide_eq_false_2 by (by rewrite length_lt_1).
    simpl. rewrite decide_True by done. by rewrite Hlast.
  - rewrite decide_True by done. by rewrite Hlast.
Qed.


Lemma last_is_Some {A} (l : list A) : l ≠ [] → ∃ x, last l = Some x.
Proof.
  intros Hl. destruct (last l) eqn:E; [by eexists|].
  by apply last_None in E.
Qed.

(** What a writing step leaves behind: the table of the code grows by the
    written rows, the other tables, groups and files stay, and the two
    [LAST_UPDATE] attributes move exactly when the code is an index. *)
Lemma append_body_writes data_type checkorder count code data db fp :
  let mk := prefix2 (upper code) in
  let rows := written checkorder fp data_type data in
  let grp := getGroup data_type fp in
  mk ∈ MARKETS →
  db !! mk = Some fp →
  rows ≠ [] →
  ∃ db' fp',
    append_body data_type checkorder count (code, data) db
      = (Val (count.1 + 1, count.2 + 1), db') ∧
    db' !! mk = Some fp' ∧
    (∀ mk', mk' ≠ mk → db' !! mk' = db !! mk') ∧
    tables (getGroup data_type fp')
      = <[upper code := (default [] (tables grp !! upper code) ++ rows)%list]>
          (tables grp) ∧
    (∀ t, t ≠ data_type → getGroup t fp' = getGroup t fp) ∧
    (upper code ∈ MK_INDEX_values →
       ∃ r, last rows = Some r ∧
            LAST_UPDATE (getGroup data_type fp') = dtnum2str (time r) ∧
            root_LAST_UPDATE fp' = dtnum2str (time r)) ∧
    (upper code ∉ MK_INDEX_values →
       LAST_UPDATE (getGroup data_type fp') = LAST_UPDATE grp ∧
       root_LAST_UPDATE fp' = root_LAST_UPDATE fp).
Proof.
  intros mk rows grp Hmk Hfp Hrows. subst mk.
  destruct (decide (upper code ∈ MK_INDEX_values)) as [Hidx|Hidx].
  - destruct (last_is_Some rows Hrows) as [r Hr].
    eexists _, _. split; [by eapply append_body_index|].
    split; [by rewrite !lookup_alter_eq, Hfp|].
    split; [intros mk' Hne; by rewrite !lookup_alter_ne|].
    unfold appended. fold grp rows.
    split; [by destruct data_type|].
    split; [intros t Ht; by destruct data_type, t|].
    split; [|done]. intros _. exists r.
    split; [done|]. by destruct data_type.
  - eexists _, _. split; [by eapply append_body_plain|].
    split; [by rewrite lookup_alter_eq, Hfp|].
    split; [intros mk' Hne; by rewrite lookup_alter_ne|].
    unfold appended. fold grp rows.
    split; [by destruct data_type|].
    split; [intros t Ht; by destruct data_type, t|].
    split; [done|]. intros _. by destruct data_type.
Qed.

End Append.

(** ** The append engine, claim by claim *)

Section AppendClaims.
Context `{Tools}.

(** [code in MK_INDEX.values()] holds exactly for the index code of the
    code's own market. *)
Lemma index_code_of_market (code : string) :
  code ∈ MK_INDEX_values ↔ MK_INDEX !! prefix2 code = Some code.
Proof.
  unfold MK_INDEX_values, MK_INDEX. split.
  - intros Hin. apply elem_of_cons in Hin as [->|Hin]; [done|].
    apply elem_of_cons in Hin as [->|Hin]; [done|].
    by apply elem_of_nil in Hin.
  - intros Hl. apply lookup_insert_Some in Hl as [[_ <-]|[_ Hl]];
      [apply elem_of_cons; by left|].
    apply lookup_insert_Some in Hl as [[_ <-]|[_ Hl]];
      [apply elem_of_cons; right; apply elem_of_cons; by left|].
    by rewrite lookup_empty in Hl.
Qed.

Lemma table_of_lookup db mk t code fp :
  db !! mk = Some fp → table_of db mk t code = tables (getGroup t fp) !! code.
Proof. intros Hfp. unfold table_of. by rewrite Hfp. Qed.

(** C1. With order checking on, the rows written for a code are exactly
    the input rows whose time is at or after the cutoff of the group, in
    their input order; the cutoff is 0 when [LAST_UPDATE] is empty.  The
    table of the code grows by these rows, and by nothing when there are
    none. *)
Theorem append_checked_keeps_rows_from_cutoff
    data_type count code data db fp :
  let mk := prefix2 (upper code) in
  let lupdate := LAST_UPDATE (getGroup data_type fp) in
  let cutoff :=
    if decide (lupdate = EmptyString) then 0 else dtstr2num lupdate in
  let kept := filter (λ r, cutoff ≤ time r) data in
  mk ∈ MARKETS →
  db !! mk = Some fp →
  ∃ count' db',
    append_body data_type true count (code, data) db = (Val count', db') ∧
    (∀ r, r ∈ kept ↔ r ∈ data ∧ cutoff ≤ time r) ∧
    sublist kept data ∧
    (kept = [] → db' = db) ∧
    (kept ≠ [] →
       table_of db' mk data_type (upper code)
       = Some (default [] (table_of db mk data_type (upper code))
               ++ kept)%list).
Proof.
  intros mk lupdate cutoff kept Hmk Hfp.
  assert (Hk : kept = written true fp data_type data) by done.
  destruct (decide (kept = [])) as [Hnil|Hne].
  - exists (count.1 + 1, count.2), db.
    split; [eapply append_body_skip; eauto; by rewrite <-Hk|].
    split; [intros r; unfold kept; rewrite list_elem_of_filter; tauto|].
    split; [apply sublist_filter|]. done.
  - destruct (append_body_writes data_type true count code data db fp)
      as (db' & fp' & Hrun & Hfp' & _ & Htbl & _); [done|done|by rewrite <-Hk|].
    exists (count.1 + 1, count.2 + 1), db'.
    split; [done|].
    split; [intros r; unfold kept; rewrite list_elem_of_filter; tauto|].
    split; [apply sublist_filter|].
    split; [done|]. intros _.
    rewrite (table_of_lookup db' mk _ _ fp' Hfp'),
            (table_of_lookup db mk _ _ fp Hfp), Htbl, lookup_insert_eq.
    by rewrite <-Hk.
Qed.

(** C6. With order checking on, a code whose rows all lie before the
    cutoff is skipped: the open files are left as they were (no table is
    made or grown, no attribute changes) and the code is counted in
    [count[0]] only. *)
Theorem append_checked_empty_is_skipped data_type count code data db fp :
  let mk := prefix2 (upper code) in
  mk ∈ MARKETS →
  db !! mk = Some fp →
  rows_from (start_of (LAST_UPDATE (getGroup data_type fp))) data = [] →
  append_body data_type true count (code, data) db
  = (Val (count.1 + 1, count.2), db).
Proof. intros mk Hmk Hfp Hnil. by eapply append_body_skip. Qed.

(** C5. A step that writes rows sets the [LAST_UPDATE] of the group and
    of the root exactly when the code is the index code of its market, and
    then to the date of the last written row; for any other code every
    [LAST_UPDATE] attribute of every open file stays. *)
Theorem append_index_sets_last_update
    data_type checkorder count code data db fp :
  let mk := prefix2 (upper code) in
  let rows := written checkorder fp data_type data in
  mk ∈ MARKETS →
  db !! mk = Some fp →
  rows ≠ [] →
  ∃ count' db' fp',
    append_body data_type checkorder count (code, data) db
      = (Val count', db') ∧
    db' !! mk = Some fp' ∧
    (MK_INDEX !! mk = Some (upper code) →
       ∃ r, last rows = Some r ∧
            LAST_UPDATE (getGroup data_type fp') = dtnum2str (time r) ∧
            root_LAST_UPDATE fp' = dtnum2str (time r)) ∧
    (MK_INDEX !! mk ≠ Some (upper code) →
       root_LAST_UPDATE fp' = root_LAST_UPDATE fp ∧
       ∀ t, LAST_UPDATE (getGroup t fp') = LAST_UPDATE (getGroup t fp)) ∧
    (∀ mk', mk' ≠ mk → db' !! mk' = db !! mk').
Proof.
  intros mk rows Hmk Hfp Hrows.
  destruct (append_body_writes data_type checkorder count code data db fp)
    as (db' & fp' & Hrun & Hfp' & Hother & _ & Hgrp & Hidx & Hplain);
    [done..|].
  exists (count.1 + 1, count.2 + 1), db', fp'.
  split; [done|]. split; [done|].
  split; [intros Hi; by apply Hidx, index_code_of_market|].
  split; [|done]. intros Hi.
  destruct Hplain as [Hg Hr]; [by rewrite index_code_of_market|].
  split; [done|]. intros t.
  destruct (decide (t = data_type)) as [->|Ht]; [done|]. by rewrite Hgrp.
Qed.

(** C10. With order checking off, a non-empty batch for the index code of
    a market sets the [LAST_UPDATE] of the group and of the root to the date
    of the last input row, whatever the attributes held before. *)
Theorem append_unchecked_index_overwrites_last_update
    data_type count code data db fp :
  let mk := prefix2 (upper code) in
  mk ∈ MARKETS →
  db !! mk = Some fp →
  data ≠ [] →
  MK_INDEX !! mk = Some (upper code) →
  ∃ count' db' fp' r,
    append_body data_type false count (code, data) db = (Val count', db') ∧
    db' !! mk = Some fp' ∧
    last data = Some r ∧
    LAST_UPDATE (getGroup data_type fp') = dtnum2str (time r) ∧
    root_LAST_UPDATE fp' = dtnum2str (time r).
Proof.
  intros mk Hmk Hfp Hdata Hi.
  destruct (append_body_writes data_type false count code data db fp)
    as (db' & fp' & Hrun & Hfp' & _ & _ & _ & Hidx & _); [done..|].
  destruct Hidx as (r & Hr & Hg & Hroot); [by apply index_code_of_market|].
  by exists (count.1 + 1, count.2 + 1), db', fp', r.
Qed.

(** C8, as the code has it.  A code whose market tag is not in [MARKETS]
    is counted in [count[0]], nothing is written for it, nothing is raised,
    and the loop goes on with the rest of the batch. *)
Theorem append_unknown_market_is_skipped
    data_type checkorder count code data rest db :
  prefix2 (upper code) ∉ MARKETS →
  append_body data_type checkorder count (code, data) db
    = (Val (count.1 + 1, count.2), db) ∧
  for_each (append_body data_type checkorder) count ((code, data) :: rest) db
    = for_each (append_body data_type checkorder)
        (count.1 + 1, count.2) rest db.
Proof.
  intros Hmk. split; [by apply append_body_unknown|].
  simpl. unfold mbind, M_bind. by rewrite append_body_unknown.
Qed.

End AppendClaims.

(** ** Whole calls of [_append_quote] *)

Section AppendCalls.
Context `{Tools}.

(** C2, as the code has it.  When the same batch is appended twice with
    order checking on, the second step writes again every row of the batch
    that is at or after the cutoff left by the first step.  For a code that
    is not an index the cutoff has not moved, so the same rows are written a
    second time; for an index code the cutoff is the date of the last row
    written, and the second step writes nothing only if every row of the
    batch lies before that date. *)
Theorem append_twice_rewrites_rows_from_cutoff
    data_type count code data db fp :
  let mk := prefix2 (upper code) in
  let kept := written true fp data_type data in
  let old := default [] (tables (getGroup data_type fp) !! upper code) in
  mk ∈ MARKETS →
  db !! mk = Some fp →
  kept ≠ [] →
  ∃ count1 db1 fp1 count2 db2,
    append_body data_type true count (code, data) db = (Val count1, db1) ∧
    db1 !! mk = Some fp1 ∧
    append_body data_type true count1 (code, data) db1 = (Val count2, db2) ∧
    let kept2 := written true fp1 data_type data in
    table_of db2 mk data_type (upper code)
      = Some (old ++ kept ++ kept2)%list ∧
    (upper code ∉ MK_INDEX_values → kept2 = kept) ∧
    (upper code ∈ MK_INDEX_values →
       ∃ r, last kept = Some r ∧
            LAST_UPDATE (getGroup data_type fp1) = dtnum2str (time r)) ∧
    (kept2 = [] ↔
       ∀ r, r ∈ data →
            time r < start_of (LAST_UPDATE (getGroup data_type fp1))).
Proof.
  intros mk kept old Hmk Hfp Hkept.
  destruct (append_body_writes data_type true count code data db fp)
    as (db1 & fp1 & Hrun1 & Hfp1 & _ & Htbl1 & _ & Hidx & Hplain); [done..|].
  fold mk kept old in Htbl1, Hidx.
  set (kept2 := written true fp1 data_type data).
  assert (Hold1 : tables (getGroup data_type fp1) !! upper code
                  = Some (old ++ kept)%list)
    by (by rewrite Htbl1, lookup_insert_eq).
  assert (Hrest :
    (upper code ∉ MK_INDEX_values → kept2 = kept) ∧
    (upper code ∈ MK_INDEX_values →
       ∃ r, last kept = Some r ∧
            LAST_UPDATE (getGroup data_type fp1) = dtnum2str (time r)) ∧
    (kept2 = [] ↔
       ∀ r, r ∈ data →
            time r < start_of (LAST_UPDATE (getGroup data_type fp1)))).
  { split; [|split].
    - intros Hi. destruct (Hplain Hi) as [Hlu _].
      unfold kept2, kept, written. by rewrite Hlu.
    - intros Hi. destruct (Hidx Hi) as (r & Hr & Hlu & _). by exists r.
    - unfold kept2, written, rows_from. split.
      + intros Hnil r Hr.
        destruct (Z.lt_ge_cases (time r)
                    (start_of (LAST_UPDATE (getGroup data_type fp1))))
          as [?|Hge]; [done|].
        by destruct (filter_nil_not_elem_of _ _ r Hnil Hge).
      + intros Hall.
        destruct (filter _ data) as [|r l] eqn:E; [done|].
        assert (Hin : r ∈ r :: l) by left.
        rewrite <-E in Hin. apply list_elem_of_filter in Hin as [Hge Hin].
        specialize (Hall r Hin). lia. }
  destruct (decide (kept2 = [])) as [Hnil|Hne].
  - exists (count.1 + 1, count.2 + 1), db1, fp1,
           (count.1 + 1 + 1, count.2 + 1), db1.
    split; [done|]. split; [done|].
    split; [by eapply (append_body_skip data_type (count.1 + 1, count.2 + 1))|].
    split; [|done].
    rewrite (table_of_lookup db1 mk _ _ fp1 Hfp1), Hold1.
    fold kept2. rewrite Hnil. by rewrite app_nil_r.
  - destruct (append_body_writes data_type true (count.1 + 1, count.2 + 1)
                code data db1 fp1)
      as (db2 & fp2 & Hrun2 & Hfp2 & _ & Htbl2 & _); [done..|].
    exists (count.1 + 1, count.2 + 1), db1, fp1,
           (count.1 + 1 + 1, count.2 + 1 + 1), db2.
    split; [done|]. split; [done|]. split; [done|].
    split; [|done].
    rewrite (table_of_lookup db2 mk _ _ fp2 Hfp2), Htbl2, lookup_insert_eq.
    fold mk kept2. rewrite Hold1. simpl. by rewrite <-app_assoc.
Qed.

(** A turn of the loop returns, and leaves every market open, when order
    checking is on or the item is not an index code without rows. *)
Lemma append_body_returns data_type checkorder count item db :
  stores_open db →
  checkorder = true ∨ (upper item.1 ∈ MK_INDEX_values → item.2 ≠ []) →
  ∃ count' db',
    append_body data_type checkorder count item db = (Val count', db') ∧
    stores_open db'.
Proof.
  destruct item as [code data]. simpl. intros Hopen Hchk.
  destruct (decide (prefix2 (upper code) ∈ MARKETS)) as [Hmk|Hmk].
  - destruct (Hopen _ Hmk) as [fp Hfp].
    destruct (decide (written checkorder fp data_type data = [])) as [Hnil|Hne].
    + destruct checkorder.
      { eexists _, _. split; [by eapply append_body_skip|done]. }
      destruct (decide (upper code ∈ MK_INDEX_values)) as [Hidx|Hidx].
      { destruct Hchk as [?|Hdata]; [done|]. by destruct (Hdata Hidx). }
      eexists _, _. split; [by eapply append_body_plain|].
      intros mk' Hmk'. rewrite lookup_alter_is_Some. by apply Hopen.
    + destruct (append_body_writes data_type checkorder count code data db fp)
        as (db' & fp' & Hrun & Hfp' & Hother & _); [done..|].
      eexists _, db'. split; [done|]. intros mk' Hmk'.
      destruct (decide (mk' = prefix2 (upper code))) as [->|Hne'].
      * by rewrite Hfp'.
      * rewrite Hother by done. by apply Hopen.
  - eexists _, _. split; [by apply append_body_unknown|done].
Qed.

Lemma append_loop_returns data_type checkorder data_source :
  ∀ count db,
  stores_open db →
  checkorder = true ∨
    Forall (λ item, upper item.1 ∈ MK_INDEX_values → item.2 ≠ [])
      data_source →
  ∃ count' db',
    for_each (append_body data_type checkorder) count data_source db
      = (Val count', db') ∧
    stores_open db'.
Proof.
  induction data_source as [|item rest IH]; intros count db Hopen Hchk.
  - by exists count, db.
  - destruct (append_body_returns data_type checkorder count item db)
      as (count1 & db1 & Hrun & Hopen1); [done| |].
    { destruct Hchk as [?|Hall]; [by left|right]. by inversion Hall. }
    destruct (IH count1 db1) as (count' & db' & Hrest & Hopen'); [done| |].
    { destruct Hchk as [?|Hall]; [by left|right]. by inversion Hall. }
    exists count', db'. split; [|done].
    simpl. unfold mbind, M_bind. by rewrite Hrun.
Qed.

(** The closing loop of a [SPLITS] call writes [today] into the [/SPLITS]
    group of every market. *)
Lemma splits_refresh_sets_today today db :
  stores_open db →
  ∃ db',
    for_each (λ _ mk, _ ← hd5fp mk; set_group_attr mk TYPE_SPLITS today)
      tt MARKETS db = (Val tt, db') ∧
    stores_open db' ∧
    ∀ mk, mk ∈ MARKETS →
      ∃ fp', db' !! mk = Some fp' ∧ LAST_UPDATE (SPLITS fp') = today.
Proof.
  intros Hopen.
  destruct (Hopen "SH") as [fsh Hsh]; [set_solver|].
  destruct (Hopen "SZ") as [fsz Hsz]; [set_solver|].
  eexists. split.
  { unfold MARKETS. simpl. unfold mbind, M_bind, hd5fp, set_group_attr.
    rewrite Hsh. simpl. rewrite lookup_alter_ne by done. rewrite Hsz.
    simpl. done. }
  split.
  - intros mk Hmk. by rewrite !lookup_alter_is_Some; apply Hopen.
  - intros mk Hmk. unfold MARKETS in Hmk.
    apply elem_of_cons in Hmk as [->|Hmk].
    + rewrite lookup_alter_ne by done. rewrite lookup_alter_eq, Hsh.
      by eexists.
    + apply elem_of_cons in Hmk as [->|Hmk]; [|by apply elem_of_nil in Hmk].
      rewrite lookup_alter_eq, lookup_alter_ne by done. rewrite Hsz.
      by eexists.
Qed.

Lemma splits_call_sets_today today data_source checkorder db :
  stores_open db →
  checkorder = true ∨
    Forall (λ item, upper item.1 ∈ MK_INDEX_values → item.2 ≠ [])
      data_source →
  ∃ count db',
    _append_quote today TYPE_SPLITS data_source checkorder db
      = (Val count, db') ∧
    stores_open db' ∧
    ∀ mk, mk ∈ MARKETS →
      ∃ fp', db' !! mk = Some fp' ∧ LAST_UPDATE (SPLITS fp') = today.
Proof.
  intros Hopen Hchk.
  destruct (append_loop_returns TYPE_SPLITS checkorder data_source (0, 0) db)
    as (count & db1 & Hloop & Hopen1); [done..|].
  destruct (splits_refresh_sets_today today db1 Hopen1)
    as (db' & Href & Hopen' & Hset).
  exists count, db'. split; [|done].
  unfold _append_quote. rewrite (bind_Val _ _ _ _ _ Hloop). simpl.
  by rewrite (bind_Val _ _ _ _ _ Href).
Qed.


End AppendCalls.

(** ** Sorting *)

Section Sorting.

(** [sort_hd5] gets as far as the log line of the first open file. *)
Lemma sort_hd5_outcome db :
  sort_hd5 db = (if decide (db = ∅) then Val tt else Exc AttributeError, db).
Proof.
  unfold sort_hd5. rewrite (bind_Val _ _ db db db) by done.
  destruct (map_to_list db) as [|entry l] eqn:Hl.
  - apply map_to_list_empty_iff in Hl. by rewrite decide_True.
  - rewrite decide_False; [done|].
    intros Hempty. apply map_to_list_empty_iff in Hempty. congruence.
Qed.


End Sorting.

(** ** Extraction and the gap detector *)

Section ExtractAndGaps.
Context `{Tools}.

(** For a valid code the tally gains one attempt, and one copy for each
    group that has a table of the code. *)
Lemma extract_body_counts_tables dst_fp count code db fp :
  let code' := upper code in
  prefix2 code' ∈ MARKETS →
  len code' = 8 →
  db !! prefix2 code' = Some fp →
  ∃ dst_fp',
    extract_body (dst_fp, count) code db
    = (Val (dst_fp',
            (count.1 + 1,
             count.2 + Z.of_nat (length (filter
               (λ t, is_Some (tables (getGroup t fp) !! code')) TYPE_HD5)))),
       db).
Proof.
  intros code' Hmk Hlen Hfp. unfold extract_body. fold code'.
  rewrite decide_False by (intros [?|?]; done).
  rewrite (bind_Val _ _ db fp db) by (unfold hd5fp; by rewrite Hfp).
  unfold TYPE_HD5. simpl. unfold extract_group. simpl.
  destruct (tables (DAILY fp) !! code') eqn:E1;
    destruct (tables (MIN5 fp) !! code') eqn:E2;
    destruct (tables (SPLITS fp) !! code') eqn:E3; simpl;
    rewrite !filter_cons, filter_nil; simpl; rewrite E1, E2, E3;
    repeat (rewrite decide_True by (by eexists) ||
            rewrite decide_False by (by intros [? ?]));
    simpl; unfold mret, M_ret; eexists; do 3 f_equal;
    apply pair_equal_spec; split; lia.
Qed.

(** An invalid code leaves the tally and the new file as they are. *)
Lemma extract_body_invalid dst_fp count code db :
  prefix2 (upper code) ∉ MARKETS ∨ len (upper code) ≠ 8 →
  extract_body (dst_fp, count) code db = (Val (dst_fp, count), db).
Proof. intros Hbad. unfold extract_body. by rewrite decide_True. Qed.

(** C9.  When the [/MIN5] group has no table for the code, the handler
    of [get_lostdate] does not return: the lookup of the bare name raises
    [NameError], or the log line raises [ValueError]. *)
Theorem get_lostdate_missing_table_raises code db fp :
  db !! prefix2 (upper code) = Some fp →
  tables (MIN5 fp) !! upper code = None →
  get_lostdate (Some code) db
  = (Exc (if tools_NoSuchNodeError then ValueError else NameError), db).
Proof.
  intros Hfp Htbl. unfold get_lostdate, getNode. simpl.
  rewrite Hfp, Htbl. unfold lostdate_except.
  by destruct tools_NoSuchNodeError.
Qed.

(** A table that has a row on every working day between its first and
    last row has no lost date. *)
Lemma get_lostdate_full_coverage code db fp tbl r0 rn :
  db !! prefix2 (upper code) = Some fp →
  tables (MIN5 fp) !! upper code = Some tbl →
  head tbl = Some r0 →
  last tbl = Some rn →
  (∀ day, day ∈ get_workingdays (dtnum2str (time r0)) (dtnum2str (time rn)) →
          day ∈ dtnum2str <$> (time <$> tbl)) →
  get_lostdate (Some code) db = (Val (Some []), db).
Proof.
  intros Hfp Htbl Hhd Hlast Hcover. unfold get_lostdate, getNode. simpl.
  rewrite Hfp, Htbl, Hhd, Hlast.
  destruct (filter _ (get_workingdays _ _)) as [|day l] eqn:E; [done|].
  assert (Hin : day ∈ day :: l) by left.
  rewrite <-E in Hin. apply list_elem_of_filter in Hin as [Hout Hin].
  by destruct Hout; apply Hcover.
Qed.

End ExtractAndGaps.

(** ** Scenarios

    The properties above at concrete stores, run with [Sample.tools]. *)

Section Scenarios.
Import Sample.
Local Existing Instance tools.

Local Ltac decide_it := apply (bool_decide_unpack _); vm_compute; exact I.

Lemma db_with_SH lu tbls : db_with lu tbls !! "SH" = Some (sh_file lu tbls).
Proof. apply lookup_insert_eq. Qed.

Lemma db_with_open lu tbls : stores_open (db_with lu tbls).
Proof.
  intros mk Hmk. unfold MARKETS in Hmk.
  apply elem_of_cons in Hmk as [->|Hmk]; [by rewrite db_with_SH|].
  apply elem_of_cons in Hmk as [->|Hmk]; [|by apply elem_of_nil in Hmk].
  unfold db_with. rewrite lookup_insert_ne by done.
  by rewrite lookup_insert_eq.
Qed.

(** Scenario B: cutoff 200, rows at 100, 200, 300, 400. *)
Lemma scenario_cutoff_200_keeps_200_300_400 :
  table_of
    (append_body TYPE_DAILY true (0, 0)
       ("sh600000", [bar 100 1; bar 200 1; bar 300 1; bar 400 1])
       (db_with "200" ∅)).2
    "SH" TYPE_DAILY "SH600000"
  = Some [bar 200 1; bar 300 1; bar 400 1].
Proof.
  destruct (append_checked_keeps_rows_from_cutoff TYPE_DAILY (0, 0)
              "sh600000" [bar 100 1; bar 200 1; bar 300 1; bar 400 1]
              (db_with "200" ∅) (sh_file "200" ∅))
    as (count' & db' & Hrun & _ & _ & _ & Htbl).
  - decide_it.
  - apply db_with_SH.
  - rewrite Hrun. etrans; [apply Htbl; vm_compute; discriminate|].
    vm_compute. reflexivity.
Defined.

(** A batch wholly before the cutoff leaves the store and [count[1]]. *)
Lemma scenario_batch_before_cutoff_is_skipped :
  append_body TYPE_DAILY true (0, 0) ("SH600000", [bar 100 1])
    (db_with "200" ∅)
  = (Val (1, 0), db_with "200" ∅).
Proof.
  apply (append_checked_empty_is_skipped TYPE_DAILY (0, 0) "SH600000"
           [bar 100 1] (db_with "200" ∅) (sh_file "200" ∅)).
  - decide_it.
  - apply db_with_SH.
  - vm_compute. reflexivity.
Defined.

(** The index of SH with rows at 300 and then 100 against cutoff 200: the
    attributes take the date of 300, the last row written. *)
Lemma scenario_index_takes_last_written_row :
  ∃ fp',
    (append_body TYPE_DAILY true (0, 0)
       ("SH000001", [bar 300 1; bar 100 1]) (db_with "200" ∅)).2 !! "SH"
    = Some fp' ∧
    LAST_UPDATE (DAILY fp') = "300" ∧ root_LAST_UPDATE fp' = "300".
Proof.
  destruct (append_index_sets_last_update TYPE_DAILY true (0, 0)
              "SH000001" [bar 300 1; bar 100 1]
              (db_with "200" ∅) (sh_file "200" ∅))
    as (count' & db' & fp' & Hrun & Hfp' & Hidx & _).
  - decide_it.
  - apply db_with_SH.
  - vm_compute. discriminate.
  - destruct Hidx as (r & Hr & Hgrp & Hroot); [vm_compute; reflexivity|].
    vm_compute in Hr. injection Hr as <-.
    exists fp'. rewrite Hrun. split; [exact Hfp'|].
    split; [exact Hgrp|exact Hroot].
Defined.

(** An unordered append of the index row at 100 into a store whose
    watermark is 500 moves the watermark back to 100. *)
Lemma scenario_unordered_append_moves_watermark_back :
  ∃ fp',
    (append_body TYPE_DAILY false (0, 0)
       ("SH000001", [bar 100 1]) (db_with "500" ∅)).2 !! "SH"
    = Some fp' ∧
    LAST_UPDATE (DAILY fp') = "100" ∧ root_LAST_UPDATE fp' = "100" ∧
    dtstr2num (LAST_UPDATE (DAILY fp'))
      < dtstr2num (LAST_UPDATE (DAILY (sh_file "500" ∅))).
Proof.
  destruct (append_unchecked_index_overwrites_last_update TYPE_DAILY (0, 0)
              "SH000001" [bar 100 1] (db_with "500" ∅) (sh_file "500" ∅))
    as (count' & db' & fp' & r & Hrun & Hfp' & Hr & Hgrp & Hroot).
  - decide_it.
  - apply db_with_SH.
  - discriminate.
  - vm_compute. reflexivity.
  - vm_compute in Hr. injection Hr as <-.
    exists fp'. rewrite Hrun. split; [exact Hfp'|].
    split; [exact Hgrp|]. split; [exact Hroot|].
    change (getGroup TYPE_DAILY fp') with (DAILY fp') in Hgrp.
    rewrite Hgrp. vm_compute. reflexivity.
Defined.

(** A code with market tag XX is counted and nothing else happens. *)
Lemma scenario_unknown_market_tag :
  append_body TYPE_DAILY true (0, 0) ("xx123456", [bar 100 1])
    new_db
  = (Val (1, 0), db_with EmptyString ∅).
Proof.
  apply (append_unknown_market_is_skipped TYPE_DAILY true (0, 0)
           "xx123456" [bar 100 1] [] new_db).
  decide_it.
Defined.

(** The nine-character code SH6000001 has a known market tag: a table of
    that name is made and the row is written. *)
Lemma append_long_code_is_written :
  len (upper "SH6000001") ≠ 8 ∧
  (append_body TYPE_DAILY true (0, 0) ("SH6000001", [bar 100 1])
     new_db).1 = Val (1, 1) ∧
  table_of
    (append_body TYPE_DAILY true (0, 0) ("SH6000001", [bar 100 1])
       new_db).2
    "SH" TYPE_DAILY "SH6000001"
  = Some [bar 100 1].
Proof. split; [|split]; vm_compute; (discriminate || reflexivity). Qed.

(** The same batch twice for SH600000: the row is stored twice. *)
Lemma scenario_same_batch_twice_is_written_twice :
  ∃ count1 db1 count2 db2,
    append_body TYPE_DAILY true (0, 0) ("SH600000", [bar 100 1])
      new_db = (Val count1, db1) ∧
    append_body TYPE_DAILY true count1 ("SH600000", [bar 100 1]) db1
      = (Val count2, db2) ∧
    table_of db2 "SH" TYPE_DAILY "SH600000"
    = Some [bar 100 1; bar 100 1].
Proof.
  destruct (append_twice_rewrites_rows_from_cutoff TYPE_DAILY (0, 0)
              "SH600000" [bar 100 1] new_db new_sh)
    as (count1 & db1 & fp1 & count2 & db2 & Hrun1 & Hfp1 & Hrun2
        & Htbl & Hsame & _).
  - decide_it.
  - apply db_with_SH.
  - vm_compute. discriminate.
  - exists count1, db1, count2, db2. split; [exact Hrun1|].
    split; [exact Hrun2|].
    etrans; [exact Htbl|]. rewrite Hsame by decide_it.
    vm_compute. reflexivity.
Defined.

(** Two calls of [_append_quote] with the same one-row batch: the second
    call appends the row again. *)
Lemma append_same_batch_second_call_appends :
  let batch := [("SH600000", [bar 100 1])] in
  let first := _append_quote "20240102" TYPE_DAILY batch true new_db in
  let second := _append_quote "20240102" TYPE_DAILY batch true first.2 in
  first.1 = Val (1, 1) ∧
  table_of first.2 "SH" TYPE_DAILY "SH600000" = Some [bar 100 1] ∧
  second.1 = Val (1, 1) ∧
  table_of second.2 "SH" TYPE_DAILY "SH600000"
  = Some [bar 100 1; bar 100 1].
Proof. repeat split; vm_compute; reflexivity. Qed.




(** Rows at 300, 100, 200 stay at 300, 100, 200. *)
Lemma sort_leaves_table_out_of_order :
  let db := db_with EmptyString
              (<["SH600000" := [bar 300 0; bar 100 0; bar 200 0]]> ∅) in
  (sort_hd5 db).1 = Exc AttributeError ∧
  table_of (sort_hd5 db).2 "SH" TYPE_DAILY "SH600000"
  = Some [bar 300 0; bar 100 0; bar 200 0].
Proof. split; vm_compute; reflexivity. Qed.

(** C3.  SH600000 has a table in [/DAILY] and in [/MIN5]; XX123456 is
    invalid.  [extract] logs 2 out of 1: [count[1]] counts copied tables,
    [count[0]] counts valid codes. *)
Theorem extract_tally_counts_tables_not_codes :
  ∃ dst_fp,
    extract ["SH600000"; "XX123456"] (db_two_groups [bar 100 1])
    = (Val (Some (dst_fp, (1, 2))), db_two_groups [bar 100 1]).
Proof. eexists. vm_compute. reflexivity. Qed.

(** SH600000 has no table in [/MIN5]: [get_lostdate] raises. *)
Lemma scenario_lostdate_missing_table_raises :
  get_lostdate (Some "SH600000") new_db
  = (Exc ValueError, db_with EmptyString ∅).
Proof.
  rewrite (get_lostdate_missing_table_raises "SH600000" new_db
             new_sh).
  - reflexivity.
  - apply db_with_SH.
  - vm_compute. reflexivity.
Defined.

End Scenarios.

(** * Further properties of the append engine *)

Section AppendFrame.
Context `{Tools}.

(** ** Relations between stores that loops carry along *)

Lemma bind_Exc {A B} (m : M A) (k : A → M B) db e db' :
  m db = (Exc e, db') → (m ≫= k) db = (Exc e, db').
Proof. intros E. unfold mbind, M_bind. by rewrite E. Qed.

Lemma bind_rel {A B} (R : DB → DB → Prop) `{!Transitive R}
    (m : M A) (k : A → M B) db :
  R db (m db).2 → (∀ a d, R d (k a d).2) → R db ((m ≫= k) db).2.
Proof.
  intros Hm Hk. unfold mbind, M_bind.
  destruct (m db) as [[a|e] d]; simpl in *; [|done].
  by etrans; [exact Hm|apply Hk].
Qed.

Lemma for_each_rel {A S} (R : DB → DB → Prop)
    `{!Reflexive R, !Transitive R} (body : S → A → M S) (l : list A) :
  (∀ acc x db, x ∈ l → R db (body acc x db).2) →
  ∀ acc db, R db (for_each body acc l db).2.
Proof.
  induction l as [|x l IH]; intros Hbody acc db; simpl; [done|].
  apply bind_rel; [done|by apply Hbody; left|].
  intros a d. apply IH. intros acc' y d' Hy. by apply Hbody; right.
Qed.

Global Instance tables_extend_refl : Reflexive tables_extend.
Proof.
  intros db mk t code rows Hrows. exists []. by rewrite app_nil_r.
Qed.

Global Instance tables_extend_trans : Transitive tables_extend.
Proof.
  intros db1 db2 db3 H12 H23 mk t code rows Hrows.
  destruct (H12 _ _ _ _ Hrows) as [more1 H1].
  destruct (H23 _ _ _ _ H1) as [more2 H2].
  exists (more1 ++ more2)%list. by rewrite app_assoc.
Qed.

Global Instance same_attrs_refl : Reflexive same_attrs.
Proof. by intros db mk. Qed.

Global Instance same_attrs_trans : Transitive same_attrs.
Proof. intros d1 d2 d3 H12 H23 mk. by rewrite H23, H12. Qed.

(** A write through a handle that only grows tables. *)
Lemma tables_extend_alter (f : File → File) mk db :
  (∀ fp t code rows,
     tables (getGroup t fp) !! code = Some rows →
     ∃ more, tables (getGroup t (f fp)) !! code = Some (rows ++ more)%list) →
  tables_extend db (alter f mk db).
Proof.
  intros Hf mk' t code rows. unfold table_of.
  destruct (decide (mk = mk')) as [<-|Hne].
  - rewrite lookup_alter_eq. destruct (db !! mk) as [fp|]; [|done].
    simpl. apply Hf.
  - rewrite lookup_alter_ne by done. intros Hrows. exists [].
    by rewrite app_nil_r.
Qed.

Lemma appended_grows data_type code rows fp t code' rows' :
  tables (getGroup t fp) !! code' = Some rows' →
  ∃ more,
    tables (getGroup t (appended data_type code rows fp)) !! code'
    = Some (rows' ++ more)%list.
Proof.
  intros Hrows'. unfold appended.
  destruct (decide (t = data_type)) as [->|Ht].
  - rewrite getGroup_setGroup. simpl.
    destruct (decide (code' = code)) as [->|Hc].
    + rewrite lookup_insert_eq, Hrows'. by exists rows.
    + rewrite lookup_insert_ne by done. exists []. by rewrite app_nil_r.
  - rewrite getGroup_setGroup_ne by done. exists []. by rewrite app_nil_r.
Qed.

Lemma attr_write_keeps_tables (f : File → File) mk db :
  (∀ fp t, tables (getGroup t (f fp)) = tables (getGroup t fp)) →
  tables_extend db (alter f mk db).
Proof.
  intros Hf. apply tables_extend_alter. intros fp t code rows Hrows.
  exists []. by rewrite Hf, app_nil_r.
Qed.

Lemma set_group_keeps_tables t tmp fp t' :
  tables (getGroup t'
            (setGroup t (set_LAST_UPDATE tmp (getGroup t fp)) fp))
  = tables (getGroup t' fp).
Proof. by destruct t, t'. Qed.

Lemma set_root_keeps_tables tmp fp t :
  tables (getGroup t (set_root_LAST_UPDATE tmp fp)) = tables (getGroup t fp).
Proof. by destruct t. Qed.

Lemma same_attrs_alter (f : File → File) mk db :
  (∀ fp, attrs (f fp) = attrs fp) → same_attrs db (alter f mk db).
Proof.
  intros Hf mk'. destruct (decide (mk = mk')) as [<-|Hne].
  - rewrite lookup_alter_eq. destruct (db !! mk); simpl; [|done].
    by rewrite Hf.
  - by rewrite lookup_alter_ne.
Qed.

Lemma attrs_appended data_type code rows fp :
  attrs (appended data_type code rows fp) = attrs fp.
Proof. by destruct data_type. Qed.

(** ** Every way one turn of the loop can end *)
Lemma append_body_cases data_type checkorder count code data db :
  let mk := prefix2 (upper code) in
  let run := append_body data_type checkorder count (code, data) db in
  run = (Val (count.1 + 1, count.2), db) ∨
  (mk ∈ MARKETS ∧ db !! mk = None ∧ run = (Exc KeyError, db)) ∨
  ∃ fp, mk ∈ MARKETS ∧ db !! mk = Some fp ∧
    (let rows := written checkorder fp data_type data in
     let db1 := alter (appended data_type (upper code) rows) mk db in
     ((upper code ∉ MK_INDEX_values) ∧
        run = (Val (count.1 + 1, count.2 + 1), db1)) ∨
     (upper code ∈ MK_INDEX_values ∧ rows = [] ∧ checkorder = false ∧
        run = (Exc IndexError, db1)) ∨
     (upper code ∈ MK_INDEX_values ∧
        ∃ r, last rows = Some r ∧
          run = (Val (count.1 + 1, count.2 + 1),
                 alter (set_root_LAST_UPDATE (dtnum2str (time r))) mk
                   (alter (λ fp, setGroup data_type
                             (set_LAST_UPDATE (dtnum2str (time r))
                                (getGroup data_type fp)) fp) mk db1)))).
Proof.
  intros mk run. subst mk run.
  destruct (decide (prefix2 (upper code) ∈ MARKETS)) as [Hmk|Hmk];
    [|left; by apply append_body_unknown].
  destruct (db !! prefix2 (upper code)) as [fp|] eqn:Hfp.
  - destruct (decide (written checkorder fp data_type data = []))
      as [Hnil|Hne].
    + destruct checkorder; [left; by eapply append_body_skip|].
      right; right. exists fp. split; [done|]. split; [done|]. cbv zeta.
      destruct (decide (upper code ∈ MK_INDEX_values)) as [Hidx|Hidx].
      * right; left. split; [done|]. split; [done|]. split; [done|].
        unfold written in Hnil. subst data.
        unfold append_body, written. simpl.
        rewrite decide_False by (intros ?; done).
        unfold mbind, M_bind, hd5fp. rewrite Hfp. simpl.
        by rewrite decide_True.
      * left. split; [done|]. by apply append_body_plain.
    + right; right. exists fp. split; [done|]. split; [done|]. cbv zeta.
      destruct (decide (upper code ∈ MK_INDEX_values)) as [Hidx|Hidx].
      * right; right. split; [done|].
        destruct (last_is_Some _ Hne) as [r Hr]. exists r.
        split; [done|]. by apply append_body_index.
      * left. split; [done|]. by apply append_body_plain.
  - right; left. split; [done|]. split; [done|].
    unfold append_body. simpl.
    rewrite decide_False by (intros ?; done).
    unfold mbind, M_bind, hd5fp. by rewrite Hfp.
Qed.

(** One turn only grows tables. *)
Lemma append_body_only_appends data_type checkorder count item db :
  tables_extend db (append_body data_type checkorder count item db).2.
Proof.
  destruct item as [code data].
  destruct (append_body_cases data_type checkorder count code data db)
    as [->|[(_ & _ & ->)|(fp & _ & _ & Hrun)]]; [done|done|].
  cbv zeta in Hrun.
  assert (Hgrow : tables_extend db
            (alter (appended data_type (upper code)
                      (written checkorder fp data_type data))
                   (prefix2 (upper code)) db)).
  { apply tables_extend_alter. intros ?????. by apply appended_grows. }
  destruct Hrun as [[_ ->]|[(_ & _ & _ & ->)|(_ & r & _ & ->)]];
    [done|done|].
  simpl. etrans; [exact Hgrow|].
  etrans; apply attr_write_keeps_tables; intros.
  - apply set_group_keeps_tables.
  - apply set_root_keeps_tables.
Qed.

Lemma append_quote_extends today data_type data_source checkorder db :
  tables_extend db
    (_append_quote today data_type data_source checkorder db).2.
Proof.
  unfold _append_quote.
  apply (bind_rel tables_extend).
  { apply (for_each_rel tables_extend). intros acc x d _.
    apply append_body_only_appends. }
  intros count d. apply (bind_rel tables_extend); [|done].
  destruct (decide (data_type = TYPE_SPLITS)); [|done].
  apply (for_each_rel tables_extend). intros [] mk d' _.
  apply (bind_rel tables_extend).
  - unfold hd5fp. by destruct (d' !! mk).
  - intros _ d''. apply attr_write_keeps_tables. intros.
    apply set_group_keeps_tables.
Qed.

(** X1.  [_append_quote] only ever appends: whether the call returns or
    raises, every table that was stored is still stored afterwards, with
    its old rows, in their order, at the front. *)
Theorem append_quote_only_appends
    today data_type data_source checkorder db :
  tables_extend db
    (_append_quote today data_type data_source checkorder db).2.
Proof. apply append_quote_extends. Qed.

End AppendFrame.

Section AppendTally.
Context `{Tools}.

Global Instance same_open_refl : Reflexive same_open.
Proof. by intros db mk. Qed.

Global Instance same_open_trans : Transitive same_open.
Proof. intros d1 d2 d3 H12 H23 mk. etrans; [apply H23|apply H12]. Qed.

Lemma same_open_alter (f : File → File) mk db : same_open db (alter f mk db).
Proof. intros mk'. apply lookup_alter_is_Some. Qed.

Lemma append_body_same_open data_type checkorder count item db :
  same_open db (append_body data_type checkorder count item db).2.
Proof.
  destruct item as [code data].
  destruct (append_body_cases data_type checkorder count code data db)
    as [->|[(_ & _ & ->)|(fp & _ & _ & Hrun)]]; [done|done|].
  cbv zeta in Hrun.
  destruct Hrun as [[_ ->]|[(_ & _ & _ & ->)|(_ & r & _ & ->)]]; simpl.
  - apply same_open_alter.
  - apply same_open_alter.
  - etrans; [apply same_open_alter|].
    etrans; apply same_open_alter.
Qed.

(** A turn that returns has counted the code once, and at most once as
    appended. *)
Lemma append_body_count data_type checkorder count item db count' db' :
  append_body data_type checkorder count item db = (Val count', db') →
  count'.1 = count.1 + 1 ∧
  (count'.2 = count.2 ∨ count'.2 = count.2 + 1).
Proof.
  destruct item as [code data]. intros Hrun.
  destruct (append_body_cases data_type checkorder count code data db)
    as [E|[(_ & _ & E)|(fp & _ & _ & E)]]; cbv zeta in E.
  - rewrite E in Hrun. simplify_eq. simpl. auto.
  - rewrite E in Hrun. discriminate.
  - destruct E as [[_ E]|[(_ & _ & _ & E)|(_ & r & _ & E)]];
      rewrite E in Hrun; simplify_eq; simpl; auto.
Qed.

Lemma append_loop_count data_type checkorder data_source :
  ∀ count db count' db',
  for_each (append_body data_type checkorder) count data_source db
    = (Val count', db') →
  count'.1 = count.1 + Z.of_nat (length data_source) ∧
  count.2 ≤ count'.2 ≤ count.2 + Z.of_nat (length data_source).
Proof.
  induction data_source as [|item rest IH]; intros count db count' db' Hrun.
  - simpl in Hrun. unfold mret, M_ret in Hrun. simplify_eq. simpl. lia.
  - simpl in Hrun. unfold mbind, M_bind in Hrun.
    destruct (append_body data_type checkorder count item db)
      as [[count1|e] db1] eqn:E; [|discriminate].
    apply append_body_count in E as [E1 E2].
    apply IH in Hrun as [H1 H2]. simpl length. lia.
Qed.

(** X2.  The tally of a call that returns: [count[0]] is the number of
    items of the batch, whatever their codes, and [count[1]] lies between
    0 and [count[0]]. *)
Theorem append_quote_tally
    today data_type data_source checkorder db count db' :
  _append_quote today data_type data_source checkorder db
    = (Val count, db') →
  count.1 = Z.of_nat (length data_source) ∧ 0 ≤ count.2 ≤ count.1.
Proof.
  unfold _append_quote. intros Hrun. unfold mbind at 1, M_bind at 1 in Hrun.
  destruct (for_each (append_body data_type checkorder) (0, 0)
              data_source db) as [[count1|e] db1] eqn:Hloop;
    [|discriminate].
  apply append_loop_count in Hloop as [H1 H2]. simpl in H1, H2.
  unfold mbind, M_bind in Hrun.
  destruct (decide (data_type = TYPE_SPLITS)).
  - destruct (for_each _ () MARKETS db1) as [[[]|e2] db2]; [|discriminate].
    unfold mret, M_ret in Hrun. simplify_eq. lia.
  - unfold mret, M_ret in Hrun. simplify_eq. lia.
Qed.

(** X3.  A [DAILY] or [MIN5] call whose batch has no index code leaves
    every [LAST_UPDATE] attribute of every file as it was, whether it
    returns or raises. *)
Theorem append_quote_without_index_keeps_attrs
    today data_type data_source checkorder db :
  data_type ≠ TYPE_SPLITS →
  Forall (λ item, upper item.1 ∉ MK_INDEX_values) data_source →
  same_attrs db (_append_quote today data_type data_source checkorder db).2.
Proof.
  intros Htype Hnoidx. unfold _append_quote.
  apply (bind_rel same_attrs).
  - apply (for_each_rel same_attrs). intros acc [code data] d Hin.
    rewrite Forall_forall in Hnoidx. specialize (Hnoidx _ Hin).
    simpl in Hnoidx.
    destruct (append_body_cases data_type checkorder acc code data d)
      as [->|[(_ & _ & ->)|(fp & _ & _ & Hrun)]]; [done|done|].
    cbv zeta in Hrun.
    destruct Hrun as [[_ ->]|[(Hidx & _)|(Hidx & _)]]; [|done|done].
    simpl. apply same_attrs_alter. intros. apply attrs_appended.
  - intros count d. rewrite decide_False by done.
    by apply (bind_rel same_attrs).
Qed.

Lemma append_quote_returns today data_type data_source db :
  stores_open db →
  ∃ count db',
    _append_quote today data_type data_source true db = (Val count, db') ∧
    stores_open db'.
Proof.
  intros Hopen.
  destruct (append_loop_returns data_type true data_source (0, 0) db)
    as (count & db1 & Hloop & Hopen1); [done|by left|].
  unfold _append_quote. rewrite (bind_Val _ _ _ _ _ Hloop).
  destruct (decide (data_type = TYPE_SPLITS)) as [->|Hne].
  - destruct (splits_refresh_sets_today today db1 Hopen1)
      as (db' & Href & Hopen' & _).
    exists count, db'. by rewrite (bind_Val _ _ _ _ _ Href).
  - by exists count, db1.
Qed.

(** X4.  With order checking on and every market open, a call returns
    for every batch and every data type: no code of the batch makes it
    raise, and the markets stay open. *)
Theorem append_quote_checked_returns today data_type data_source db :
  stores_open db →
  ∃ count db',
    _append_quote today data_type data_source true db = (Val count, db') ∧
    stores_open db'.
Proof. apply append_quote_returns. Qed.

(** X5.  A code of a known market whose file is not open stops the call
    with [KeyError] at once: nothing is written for it and the rest of
    the batch is not looked at. *)
Theorem append_quote_closed_market_raises
    today data_type code data rest checkorder db :
  prefix2 (upper code) ∈ MARKETS →
  db !! prefix2 (upper code) = None →
  _append_quote today data_type ((code, data) :: rest) checkorder db
  = (Exc KeyError, db).
Proof.
  intros Hmk Hfp. unfold _append_quote. simpl.
  destruct (append_body_cases data_type checkorder (0, 0) code data db)
    as [E|[(_ & _ & E)|(fp & _ & Hfp' & _)]].
  - exfalso. unfold append_body in E. simpl in E.
    rewrite decide_False in E by (intros ?; done).
    unfold mbind, M_bind, hd5fp in E. by rewrite Hfp in E.
  - unfold mbind, M_bind. by rewrite E.
  - by rewrite Hfp in Hfp'.
Qed.

Lemma index_code_market code :
  code ∈ MK_INDEX_values → prefix2 code ∈ MARKETS.
Proof.
  unfold MK_INDEX_values, MARKETS. intros Hin.
  apply elem_of_cons in Hin as [->|Hin]; [by left|].
  apply elem_of_cons in Hin as [->|Hin]; [by right; left|].
  by apply elem_of_nil in Hin.
Qed.

(** X6.  With order checking off, an item of an index code with no rows
    stops the call with [IndexError]: by then the table of the code has
    been made or touched, but no row and no attribute has changed, and the
    rest of the batch is not looked at. *)
Theorem append_quote_empty_unordered_index_raises
    today data_type code rest db fp :
  upper code ∈ MK_INDEX_values →
  db !! prefix2 (upper code) = Some fp →
  ∃ db',
    _append_quote today data_type ((code, []) :: rest) false db
      = (Exc IndexError, db') ∧
    table_of db' (prefix2 (upper code)) data_type (upper code)
      = Some (default []
                (table_of db (prefix2 (upper code)) data_type (upper code))) ∧
    same_attrs db db'.
Proof.
  intros Hidx Hfp.
  destruct (append_body_cases data_type false (0, 0) code [] db)
    as [E|[(_ & Hnone & _)|(fp' & _ & Hfp' & E)]].
  - exfalso. unfold append_body in E. simpl in E.
    rewrite decide_False in E
      by (intros Hn; apply Hn; by apply index_code_market).
    unfold mbind, M_bind, hd5fp in E. rewrite Hfp in E. simpl in E.
    rewrite decide_True in E by done. simpl in E.
    unfold raise in E. discriminate.
  - by rewrite Hfp in Hnone.
  - rewrite Hfp in Hfp'. simplify_eq. cbv zeta in E.
    destruct E as [[Hn _]|[(_ & _ & _ & E)|(_ & r & Hr & _)]];
      [done| |done].
    eexists. split.
    { unfold _append_quote. simpl. unfold mbind, M_bind. by rewrite E. }
    split.
    + unfold table_of. rewrite lookup_alter_eq, Hfp. simpl.
      unfold appended. rewrite getGroup_setGroup. simpl.
      by rewrite lookup_insert_eq, app_nil_r.
    + apply same_attrs_alter. intros. apply attrs_appended.
Qed.

End AppendTally.

Section AppendMore.
Context `{Tools}.

(** The loop returns when order checking is on and the market of every
    item is unknown or open. *)
Lemma append_loop_returns_on_open data_type data_source :
  ∀ count db,
  Forall (λ item, prefix2 (upper item.1) ∈ MARKETS →
                  is_Some (db !! prefix2 (upper item.1))) data_source →
  ∃ count' db',
    for_each (append_body data_type true) count data_source db
      = (Val count', db') ∧
    same_open db db'.
Proof.
  induction data_source as [|[code data] rest IH]; intros count db Hall.
  - by exists count, db.
  - inversion Hall as [|? ? Hitem Hrest]; subst. simpl in Hitem.
    assert (Hstep : ∃ count1 db1,
              append_body data_type true count (code, data) db
                = (Val count1, db1) ∧ same_open db db1).
    { pose proof (append_body_same_open data_type true count (code, data) db)
        as Hsame.
      destruct (append_body_cases data_type true count code data db)
        as [E|[(Hmk & Hnone & _)|(fp & _ & _ & E)]].
      - rewrite E in Hsame. by eexists _, _.
      - destruct (Hitem Hmk) as [? ?]. congruence.
      - cbv zeta in E.
        destruct E as [[_ E]|[(_ & _ & ? & _)|(_ & r & _ & E)]];
          [|done|]; rewrite E in Hsame; by eexists _, _. }
    destruct Hstep as (count1 & db1 & Hrun & Hsame).
    destruct (IH count1 db1) as (count' & db' & Hloop & Hsame').
    { eapply Forall_impl; [exact Hrest|]. intros item Hi Hmk.
      apply Hsame. by apply Hi. }
    exists count', db'. split.
    + simpl. by rewrite (bind_Val _ _ _ _ _ Hrun).
    + by etrans.
Qed.

(** X7.  A [SPLITS] call on a store opened without [data_sz.h5]: when
    no item belongs to SZ the loop goes through, then the closing refresh
    writes [today] into the [/SPLITS] group of SH and raises [KeyError] at
    SZ. *)
Theorem splits_call_without_sz_raises_after_sh today data_source db fp :
  db !! "SH" = Some fp →
  db !! "SZ" = None →
  Forall (λ item, prefix2 (upper item.1) ≠ "SZ") data_source →
  ∃ db' fp',
    _append_quote today TYPE_SPLITS data_source true db
      = (Exc KeyError, db') ∧
    db' !! "SH" = Some fp' ∧
    LAST_UPDATE (SPLITS fp') = today ∧
    db' !! "SZ" = None.
Proof.
  intros Hsh Hsz Hitems.
  destruct (append_loop_returns_on_open TYPE_SPLITS data_source (0, 0) db)
    as (count & db1 & Hloop & Hsame).
  { eapply Forall_impl; [exact Hitems|]. intros item Hne Hmk.
    unfold MARKETS in Hmk. apply elem_of_cons in Hmk as [->|Hmk];
      [by rewrite Hsh|].
    apply elem_of_cons in Hmk as [?|Hmk]; [done|].
    by apply elem_of_nil in Hmk. }
  assert (Hsh1 : is_Some (db1 !! "SH")) by (apply Hsame; by rewrite Hsh).
  destruct Hsh1 as [fp1 Hsh1].
  assert (Hsz1 : db1 !! "SZ" = None).
  { apply eq_None_not_Some. rewrite (Hsame "SZ"). by rewrite Hsz; intros []. }
  eexists _, _. split.
  { unfold _append_quote. rewrite (bind_Val _ _ _ _ _ Hloop). simpl.
    unfold MARKETS. simpl. unfold mbind, M_bind, hd5fp, set_group_attr.
    rewrite Hsh1. simpl. rewrite lookup_alter_ne by done.
    rewrite Hsz1. simpl. done. }
  split; [by rewrite lookup_alter_eq, Hsh1|].
  split; [done|]. by rewrite lookup_alter_ne.
Qed.

(** ** Codes in any case *)

Lemma ascii_upper_idemp c : ascii_upper (ascii_upper c) = ascii_upper c.
Proof. by destruct c as [[] [] [] [] [] [] [] []]. Qed.

Lemma upper_idemp s : upper (upper s) = upper s.
Proof.
  induction s as [|c s IH]; simpl; [done|].
  by rewrite ascii_upper_idemp, IH.
Qed.

Lemma prefix2_upper s : upper (prefix2 s) = prefix2 (upper s).
Proof. unfold prefix2. by destruct s as [|a [|b [|c s]]]. Qed.

Lemma length_upper s : String.length (upper s) = String.length s.
Proof. induction s as [|c s IH]; simpl; [done|]. by rewrite IH. Qed.

(** X8.  Read your writes: after a turn of the loop that writes rows for a
    code, [read] of that code, in any case, returns the rows stored before
    followed by the rows written. *)
Theorem read_after_append
    data_type checkorder count code data db fp :
  let mk := prefix2 (upper code) in
  let rows := written checkorder fp data_type data in
  mk ∈ MARKETS →
  db !! mk = Some fp →
  rows ≠ [] →
  ∃ count' db',
    append_body data_type checkorder count (code, data) db
      = (Val count', db') ∧
    read code data_type db'
      = (Val (Some (default [] (tables (getGroup data_type fp) !! upper code)
                    ++ rows)%list), db').
Proof.
  intros mk rows Hmk Hfp Hrows.
  destruct (append_body_writes data_type checkorder count code data db fp)
    as (db' & fp' & Hrun & Hfp' & _ & Htbl & _); [done..|].
  exists (count.1 + 1, count.2 + 1), db'. split; [done|].
  unfold read. rewrite prefix2_upper.
  rewrite (bind_Val _ _ db' fp' db') by (unfold hd5fp; by rewrite Hfp').
  unfold mret, M_ret. by rewrite Htbl, lookup_insert_eq.
Qed.

(** X9.  Codes are taken in any case: the append loop, [read],
    [get_lostdate] and the [extract] loop do the same for a code and for
    its upper-case form. *)
Theorem code_case_is_ignored
    data_type checkorder count code data acc db :
  append_body data_type checkorder count (upper code, data) db
    = append_body data_type checkorder count (code, data) db ∧
  read (upper code) data_type db = read code data_type db ∧
  get_lostdate (Some (upper code)) db = get_lostdate (Some code) db ∧
  extract_body acc (upper code) db = extract_body acc code db.
Proof.
  split; [|split; [|split]].
  - unfold append_body. simpl. by rewrite upper_idemp.
  - unfold read. by rewrite !prefix2_upper, !upper_idemp.
  - unfold get_lostdate. by rewrite upper_idemp.
  - unfold extract_body. destruct acc. by rewrite upper_idemp.
Qed.

End AppendMore.

Section AppendBatch.
Context `{Tools}.

Lemma written_same_cutoff fp fp' data_type data :
  LAST_UPDATE (getGroup data_type fp') = LAST_UPDATE (getGroup data_type fp) →
  written true fp' data_type data = written true fp data_type data.
Proof. intros Hlu. unfold written. by rewrite Hlu. Qed.

Lemma kept_for_cons c fp data_type code data rest :
  kept_for c fp data_type ((code, data) :: rest)
  = ((if decide (upper code = c) then written true fp data_type data else [])
     ++ kept_for c fp data_type rest)%list.
Proof. done. Qed.

Lemma kept_for_same_cutoff c fp fp' data_type data_source :
  LAST_UPDATE (getGroup data_type fp') = LAST_UPDATE (getGroup data_type fp) →
  kept_for c fp' data_type data_source = kept_for c fp data_type data_source.
Proof.
  intros Hlu. induction data_source as [|[code data] rest IH]; [done|].
  rewrite !kept_for_cons, IH. by rewrite (written_same_cutoff fp fp').
Qed.

(** One turn for a code that is not an index, seen from the table of a
    code [c]. *)
Lemma append_body_seen_from data_type count code data db c fp :
  upper code ∉ MK_INDEX_values →
  stores_open db →
  prefix2 c ∈ MARKETS →
  db !! prefix2 c = Some fp →
  ∃ count1 db1 fp1,
    append_body data_type true count (code, data) db = (Val count1, db1) ∧
    stores_open db1 ∧ db1 !! prefix2 c = Some fp1 ∧
    LAST_UPDATE (getGroup data_type fp1)
      = LAST_UPDATE (getGroup data_type fp) ∧
    tables (getGroup data_type fp1) !! c
    = if decide (upper code = c ∧ written true fp data_type data ≠ [])
      then Some (default [] (tables (getGroup data_type fp) !! c)
                 ++ written true fp data_type data)%list
      else tables (getGroup data_type fp) !! c.
Proof.
  intros Hidx Hopen Hc Hfp.
  destruct (decide (prefix2 (upper code) ∈ MARKETS)) as [Hmk|Hmk].
  - destruct (Hopen _ Hmk) as [fp0 Hfp0].
    destruct (decide (written true fp0 data_type data = [])) as [Hnil|Hne].
    + exists (count.1 + 1, count.2), db, fp.
      split; [by eapply append_body_skip|].
      split; [done|]. split; [done|]. split; [done|].
      rewrite decide_False; [done|]. intros [<- Hw].
      rewrite Hfp0 in Hfp. by simplify_eq.
    + destruct (append_body_writes data_type true count code data db fp0)
        as (db1 & fp1 & Hrun & Hfp1 & Hother & Htbl & _ & _ & Hplain);
        [done..|].
      destruct (Hplain Hidx) as [Hlu _].
      assert (Hopen1 : stores_open db1).
      { intros mk' Hmk'.
        destruct (decide (mk' = prefix2 (upper code))) as [->|Hne'];
          [by rewrite Hfp1|].
        rewrite Hother by done. by apply Hopen. }
      destruct (decide (prefix2 c = prefix2 (upper code))) as [Heq|Hdiff].
      * rewrite Heq in Hfp. rewrite Hfp0 in Hfp. simplify_eq.
        exists (count.1 + 1, count.2 + 1), db1, fp1.
        split; [done|]. split; [done|]. split; [by rewrite Heq|].
        split; [done|]. rewrite Htbl.
        destruct (decide (upper code = c)) as [<-|Hcode].
        -- rewrite lookup_insert_eq. by rewrite decide_True.
        -- rewrite lookup_insert_ne by done.
           rewrite decide_False; [done|]. by intros [? _].
      * exists (count.1 + 1, count.2 + 1), db1, fp.
        split; [done|]. split; [done|].
        split; [by rewrite Hother|]. split; [done|].
        rewrite decide_False; [done|]. intros [<- _]. done.
  - exists (count.1 + 1, count.2), db, fp.
    split; [by apply append_body_unknown|].
    split; [done|]. split; [done|]. split; [done|].
    rewrite decide_False; [done|]. intros [<- _]. done.
Qed.

(** The loop over a batch without index code, seen from one code. *)
Lemma append_loop_batch data_type data_source c :
  Forall (λ item, upper item.1 ∉ MK_INDEX_values) data_source →
  prefix2 c ∈ MARKETS →
  ∀ count db fp,
  stores_open db →
  db !! prefix2 c = Some fp →
  ∃ count' db' fp',
    for_each (append_body data_type true) count data_source db
      = (Val count', db') ∧
    db' !! prefix2 c = Some fp' ∧
    tables (getGroup data_type fp') !! c
    = if decide (kept_for c fp data_type data_source = [])
      then tables (getGroup data_type fp) !! c
      else Some (default [] (tables (getGroup data_type fp) !! c)
                 ++ kept_for c fp data_type data_source)%list.
Proof.
  intros Hnoidx Hc.
  induction data_source as [|[code data] rest IH];
    intros count db fp Hopen Hfp.
  - exists count, db, fp. by rewrite decide_True.
  - inversion Hnoidx as [|? ? Hidx Hrest]; subst. simpl in Hidx.
    destruct (append_body_seen_from data_type count code data db c fp)
      as (count1 & db1 & fp1 & Hrun & Hopen1 & Hfp1 & Hlu & Htbl);
      [done..|].
    destruct (IH Hrest count1 db1 fp1 Hopen1 Hfp1)
      as (count' & db' & fp' & Hloop & Hfp' & Htbl').
    exists count', db', fp'.
    split; [simpl; by rewrite (bind_Val _ _ _ _ _ Hrun)|].
    split; [done|].
    rewrite Htbl', (kept_for_same_cutoff c fp fp1) by done.
    rewrite Htbl, kept_for_cons.
    set (w := written true fp data_type data).
    set (k := kept_for c fp data_type rest).
    set (old := tables (getGroup data_type fp) !! c).
    destruct (decide (upper code = c)) as [Hcode|Hcode].
    + destruct (decide (w = [])) as [Hw|Hw].
      * rewrite Hw. simpl.
        rewrite (decide_False (P := _ ∧ _)); [done|]. by intros [_ ?].
      * rewrite (decide_True (P := _ ∧ _)) by done.
        rewrite (decide_False (P := (w ++ k)%list = []))
          by (intros [? ?]%app_eq_nil; done).
        simpl. destruct (decide (k = [])) as [->|Hk].
        -- by rewrite app_nil_r.
        -- by rewrite app_assoc.
    + simpl. rewrite (decide_False (P := _ ∧ _)); [done|]. by intros [? _].
Qed.

(** X23.  What a [DAILY] or [MIN5] call writes for a code [c] when the
    batch has no index code, every market is open and order checking is
    on: the rows, at or after the cutoff the group had at the start, of
    all items of the batch for that code, in batch order, behind the rows
    already stored.  When there is no such row the table is as it was, or
    not made. *)
Theorem append_quote_batch_rows
    today data_type data_source db c fp :
  data_type ≠ TYPE_SPLITS →
  Forall (λ item, upper item.1 ∉ MK_INDEX_values) data_source →
  stores_open db →
  prefix2 c ∈ MARKETS →
  db !! prefix2 c = Some fp →
  ∃ count db',
    _append_quote today data_type data_source true db = (Val count, db') ∧
    table_of db' (prefix2 c) data_type c
    = if decide (kept_for c fp data_type data_source = [])
      then table_of db (prefix2 c) data_type c
      else Some (default [] (table_of db (prefix2 c) data_type c)
                 ++ kept_for c fp data_type data_source)%list.
Proof.
  intros Htype Hnoidx Hopen Hc Hfp.
  destruct (append_loop_batch data_type data_source c Hnoidx Hc
              (0, 0) db fp Hopen Hfp)
    as (count & db' & fp' & Hloop & Hfp' & Htbl).
  exists count, db'. split.
  - unfold _append_quote. rewrite (bind_Val _ _ _ _ _ Hloop).
    by rewrite decide_False.
  - unfold table_of. by rewrite Hfp', Hfp.
Qed.

End AppendBatch.

(** * Further properties of [extract] *)

Section ExtractMore.
Context `{Tools}.

Lemma valid_codes_cons code code_lst :
  valid_codes (code :: code_lst)
  = if decide (valid_code (upper code))
    then upper code :: valid_codes code_lst
    else valid_codes code_lst.
Proof. unfold valid_codes. by rewrite fmap_cons, filter_cons. Qed.

(** The three group copies for one code. *)
Lemma extract_groups_spec fp code dst_fp count :
  let out := foldl (extract_group fp code) (dst_fp, count) TYPE_HD5 in
  out.2 = (count.1, count.2 + groups_with fp code) ∧
  attrs out.1 = attrs dst_fp ∧
  ∀ t c,
    tables (getGroup t out.1) !! c
    = if decide (c = code)
      then match tables (getGroup t fp) !! code with
           | Some tbl => Some tbl
           | None => tables (getGroup t dst_fp) !! c
           end
      else tables (getGroup t dst_fp) !! c.
Proof.
  intros out. subst out. destruct count as [c0 c1].
  unfold groups_with, TYPE_HD5.
  rewrite !filter_cons, filter_nil. simpl. unfold extract_group. simpl.
  destruct (tables (DAILY fp) !! code) eqn:E1;
    destruct (tables (MIN5 fp) !! code) eqn:E2;
    destruct (tables (SPLITS fp) !! code) eqn:E3; simpl;
    repeat (rewrite decide_True by (by eexists) ||
            rewrite decide_False by (by intros [? ?]));
    simpl;
    (split; [apply pair_equal_spec; split; lia|]);
    (split; [done|]);
    intros t c; destruct t; simpl; rewrite ?E1, ?E2, ?E3;
    destruct (decide (c = code)) as [->|Hc];
    by rewrite ?lookup_insert_eq, ?lookup_insert_ne by done.
Qed.

Lemma not_valid_code code :
  ¬ valid_code code → prefix2 code ∉ MARKETS ∨ len code ≠ 8.
Proof.
  unfold valid_code. intros Hv.
  destruct (decide (prefix2 code ∈ MARKETS)); [|by left].
  right. intros Hlen. by apply Hv.
Qed.

Lemma extract_body_valid dst_fp count code db fp :
  valid_code (upper code) →
  db !! prefix2 (upper code) = Some fp →
  extract_body (dst_fp, count) code db
  = (Val (foldl (extract_group fp (upper code))
            (dst_fp, (count.1 + 1, count.2)) TYPE_HD5), db).
Proof.
  intros Hv Hfp. unfold extract_body.
  rewrite decide_False by (intros [?|?]; by destruct Hv).
  by rewrite (bind_Val _ _ db fp db) by (unfold hd5fp; by rewrite Hfp).
Qed.

Lemma extract_body_closed dst_fp count code db :
  valid_code (upper code) →
  db !! prefix2 (upper code) = None →
  extract_body (dst_fp, count) code db = (Exc KeyError, db).
Proof.
  intros Hv Hfp. unfold extract_body.
  rewrite decide_False by (intros [?|?]; by destruct Hv).
  unfold mbind, M_bind, hd5fp. by rewrite Hfp.
Qed.

(** The loop of [extract] from any new file and tally, when the market
    of every valid code is open. *)
Lemma extract_loop_spec code_lst :
  ∀ dst_fp count db,
  Forall (λ c, is_Some (db !! prefix2 c)) (valid_codes code_lst) →
  ∃ dst_fp',
    for_each extract_body (dst_fp, count) code_lst db
    = (Val (dst_fp',
            (count.1 + Z.of_nat (length (valid_codes code_lst)),
             count.2 + copies db (valid_codes code_lst))), db) ∧
    attrs dst_fp' = attrs dst_fp ∧
    ∀ t c,
      tables (getGroup t dst_fp') !! c
      = if decide (c ∈ valid_codes code_lst)
        then match table_of db (prefix2 c) t c with
             | Some tbl => Some tbl
             | None => tables (getGroup t dst_fp) !! c
             end
        else tables (getGroup t dst_fp) !! c.
Proof.
  induction code_lst as [|code rest IH]; intros dst_fp [c0 c1] db Hopen;
    simpl fst; simpl snd.
  - exists dst_fp.
    split; [simpl; unfold mret, M_ret; do 3 f_equal;
            apply pair_equal_spec; split; lia|].
    split; [done|]. intros t c. rewrite decide_False; [done|].
    apply not_elem_of_nil.
  - rewrite valid_codes_cons in *.
    destruct (decide (valid_code (upper code))) as [Hv|Hv].
    + inversion Hopen as [|? ? [fp Hfp] Hrest]; subst.
      destruct (extract_groups_spec fp (upper code) dst_fp
                  (c0 + 1, c1)) as (Hcnt & Hattr & Htbl).
      set (out := foldl (extract_group fp (upper code))
                    (dst_fp, (c0 + 1, c1)) TYPE_HD5) in *.
      destruct (IH out.1 out.2 db Hrest) as (dst' & Hrun & Hattr' & Htbl').
      exists dst'. split; [|split].
      * simpl.
        rewrite (bind_Val _ _ _ _ _
                   (extract_body_valid dst_fp (c0, c1) code db fp Hv Hfp)).
        simpl fst; simpl snd. fold out.
        rewrite (surjective_pairing out), Hrun, Hcnt. simpl. rewrite Hfp.
        do 3 f_equal. apply pair_equal_spec. split; lia.
      * by rewrite Hattr', Hattr.
      * intros t c. rewrite Htbl', Htbl.
        assert (Hsrc : table_of db (prefix2 (upper code)) t (upper code)
                       = tables (getGroup t fp) !! upper code)
          by (unfold table_of; by rewrite Hfp).
        destruct (decide (c ∈ valid_codes rest)) as [Hin|Hin];
          destruct (decide (c = upper code)) as [->|Hc];
          destruct (decide (_ ∈ _ :: _)) as [Hin2|Hin2];
          try (exfalso; apply Hin2; rewrite elem_of_cons; by auto);
          try (exfalso; apply elem_of_cons in Hin2 as [?|?]; done);
          rewrite ?Hsrc; try done.
        by destruct (tables (getGroup t fp) !! upper code).
    + destruct (IH dst_fp (c0, c1) db Hopen) as (dst' & Hrun & Hattr & Htbl).
      exists dst'. split; [|done]. simpl.
      by rewrite (bind_Val _ _ _ _ _
                    (extract_body_invalid dst_fp (c0, c1) code db
                       (not_valid_code _ Hv))).
Qed.

(** The loop of [extract] stops with [KeyError] at the first valid code
    whose market is not open; the open files are as before. *)
Lemma extract_loop_closed code_lst :
  ∀ acc db,
  Exists (λ c, db !! prefix2 c = None) (valid_codes code_lst) →
  for_each extract_body acc code_lst db = (Exc KeyError, db).
Proof.
  induction code_lst as [|code rest IH]; intros [dst_fp count] db Hex.
  - by apply Exists_nil in Hex.
  - rewrite valid_codes_cons in Hex. simpl.
    destruct (decide (valid_code (upper code))) as [Hv|Hv].
    + destruct (db !! prefix2 (upper code)) as [fp|] eqn:Hfp.
      * rewrite (bind_Val _ _ _ _ _
                   (extract_body_valid dst_fp count code db fp Hv Hfp)).
        apply IH.
        apply Exists_cons in Hex as [Hex|Hex]; [congruence|done].
      * by rewrite (bind_Exc _ _ _ _ _
                      (extract_body_closed dst_fp count code db Hv Hfp)).
    + rewrite (bind_Val _ _ _ _ _
                 (extract_body_invalid dst_fp count code db
                    (not_valid_code _ Hv))).
      by apply IH.
Qed.

Lemma extract_returns_on_open code_lst db :
  Forall (λ c, is_Some (db !! prefix2 c)) (valid_codes code_lst) →
  ∃ out, extract code_lst db = (Val out, db).
Proof.
  intros Hopen. unfold extract. case_bool_decide; [by eexists|].
  destruct (extract_loop_spec code_lst create_hd5 (0, 0) db Hopen)
    as (dst' & Hrun & _).
  eexists. by rewrite (bind_Val _ _ _ _ _ Hrun).
Qed.

Lemma extract_raises_on_closed code_lst db :
  ¬ Forall (λ c, is_Some (db !! prefix2 c)) (valid_codes code_lst) →
  extract code_lst db = (Exc KeyError, db).
Proof.
  intros Hclosed.
  assert (Hex : Exists (λ c, db !! prefix2 c = None) (valid_codes code_lst)).
  { apply not_Forall_Exists in Hclosed; [|apply _].
    eapply Exists_impl; [exact Hclosed|]. intros c Hc. simpl in Hc.
    by apply eq_None_not_Some. }
  unfold extract. case_bool_decide as Hlen.
  - apply length_lt_1 in Hlen. subst. by apply Exists_nil in Hex.
  - unfold mbind, M_bind. by rewrite extract_loop_closed.
Qed.

(** X10.  [extract] never writes to the open files.  It returns when
    the market of every valid requested code is open, and raises
    [KeyError] when one of them is not. *)
Theorem extract_outcome code_lst db :
  (extract code_lst db).2 = db ∧
  (Forall (λ c, is_Some (db !! prefix2 c)) (valid_codes code_lst) →
     ∃ out, extract code_lst db = (Val out, db)) ∧
  (Exists (λ c, db !! prefix2 c = None) (valid_codes code_lst) →
     extract code_lst db = (Exc KeyError, db)).
Proof.
  split; [|split].
  - destruct (decide (Forall (λ c, is_Some (db !! prefix2 c))
                        (valid_codes code_lst))) as [Hopen|Hclosed].
    + by destruct (extract_returns_on_open code_lst db Hopen) as [out ->].
    + by rewrite extract_raises_on_closed.
  - apply extract_returns_on_open.
  - intros Hex. apply extract_raises_on_closed. intros Hall.
    apply Exists_exists in Hex as (c & Hc & Hnone).
    rewrite Forall_forall in Hall. destruct (Hall c Hc) as [? ?].
    congruence.
Qed.

(** X11.  What [extract] puts into the new file: for every code of the
    request that is valid, each of its tables of the open files, with the
    same rows in the same order; no other table; and blank [LAST_UPDATE]
    attributes. *)
Theorem extract_destination code_lst db dst_fp count db' :
  extract code_lst db = (Val (Some (dst_fp, count)), db') →
  attrs dst_fp = (EmptyString, EmptyString, EmptyString, EmptyString) ∧
  ∀ t c,
    tables (getGroup t dst_fp) !! c
    = if decide (c ∈ valid_codes code_lst)
      then table_of db (prefix2 c) t c
      else None.
Proof.
  intros Hrun.
  destruct (decide (Forall (λ c, is_Some (db !! prefix2 c))
                      (valid_codes code_lst))) as [Hopen|Hclosed].
  - unfold extract in Hrun. case_bool_decide; [discriminate|].
    destruct (extract_loop_spec code_lst create_hd5 (0, 0) db Hopen)
      as (dst' & Hloop & Hattr & Htbl).
    rewrite (bind_Val _ _ _ _ _ Hloop) in Hrun.
    unfold mret, M_ret in Hrun. injection Hrun as Hdst Hcnt Hdb. subst dst_fp.
    split; [by rewrite Hattr|]. intros t c. rewrite Htbl.
    assert (Hnew : tables (getGroup t create_hd5) !! c = None)
      by (by destruct t).
    rewrite Hnew. case_decide; [|done].
    by destruct (table_of db (prefix2 c) t c).
  - rewrite (extract_raises_on_closed code_lst db Hclosed) in Hrun.
    discriminate.
Qed.

Lemma groups_with_bounds fp code : 0 ≤ groups_with fp code ≤ 3.
Proof.
  unfold groups_with, TYPE_HD5.
  pose proof (length_filter
    (λ t, is_Some (tables (getGroup t fp) !! code))
    [TYPE_DAILY; TYPE_MIN5; TYPE_SPLITS]) as Hlen.
  simpl length in Hlen at 2. lia.
Qed.

Lemma copies_bounds db codes :
  0 ≤ copies db codes ≤ 3 * Z.of_nat (length codes).
Proof.
  induction codes as [|c codes IH]; simpl; [lia|].
  destruct (db !! prefix2 c) as [fp|]; [|lia].
  pose proof (groups_with_bounds fp c). lia.
Qed.

(** X12.  The tally [extract] logs: [count[0]] is the number of valid
    codes of the request, repeats included; [count[1]] is the number of
    tables copied, one for each group that holds a table of a valid code.
    So [count[1]] can be as large as three times [count[0]]. *)
Theorem extract_tally code_lst db dst_fp count db' :
  extract code_lst db = (Val (Some (dst_fp, count)), db') →
  count.1 = Z.of_nat (length (valid_codes code_lst)) ∧
  count.2 = copies db (valid_codes code_lst) ∧
  0 ≤ count.2 ≤ 3 * count.1.
Proof.
  intros Hrun.
  destruct (decide (Forall (λ c, is_Some (db !! prefix2 c))
                      (valid_codes code_lst))) as [Hopen|Hclosed].
  - unfold extract in Hrun. case_bool_decide; [discriminate|].
    destruct (extract_loop_spec code_lst create_hd5 (0, 0) db Hopen)
      as (dst' & Hloop & _).
    rewrite (bind_Val _ _ _ _ _ Hloop) in Hrun.
    unfold mret, M_ret in Hrun. injection Hrun as Hdst Hcnt Hdb. subst count.
    simpl. pose proof (copies_bounds db (valid_codes code_lst)). lia.
  - rewrite (extract_raises_on_closed code_lst db Hclosed) in Hrun.
    discriminate.
Qed.

End ExtractMore.

(** * A further property of [sort_hd5] *)

Section SortMore.

(** X14.  [sort_hd5] never changes how many rows a table has, and never
    makes or drops a table. *)
Theorem sort_hd5_keeps_row_counts db mk t code :
  length <$> table_of (sort_hd5 db).2 mk t code
  = length <$> table_of db mk t code.
Proof. by rewrite sort_hd5_outcome. Qed.

End SortMore.

(** * Further properties of [get_lostdate] *)

Section GapsMore.
Context `{Tools}.

(** X16.  For a code whose [/MIN5] table has rows, [get_lostdate]
    returns, in calendar order, exactly the working days between the
    dates of the first and the last row on which the table has no row;
    the open files are not touched. *)
Theorem get_lostdate_reports_missing_days code db fp tbl r0 rn :
  db !! prefix2 (upper code) = Some fp →
  tables (MIN5 fp) !! upper code = Some tbl →
  head tbl = Some r0 →
  last tbl = Some rn →
  let work_days :=
    get_workingdays (dtnum2str (time r0)) (dtnum2str (time rn)) in
  ∃ lost,
    get_lostdate (Some code) db = (Val (Some lost), db) ∧
    sublist lost work_days ∧
    ∀ day, day ∈ lost ↔
           day ∈ work_days ∧ ∀ r, r ∈ tbl → dtnum2str (time r) ≠ day.
Proof.
  intros Hfp Htbl Hhd Hlast work_days.
  eexists. split.
  { unfold get_lostdate, getNode. simpl.
    by rewrite Hfp, Htbl, Hhd, Hlast. }
  split; [apply sublist_filter|].
  intros day. rewrite list_elem_of_filter. fold work_days.
  split.
  - intros [H1 H2]. split; [done|].
    intros r Hr Heq. apply H1. rewrite <-Heq.
    apply list_elem_of_fmap. exists (time r). split; [done|].
    apply list_elem_of_fmap. by exists r.
  - intros [H1 H2]. split; [|done].
    intros Hin. apply list_elem_of_fmap in Hin as (t & -> & Ht).
    apply list_elem_of_fmap in Ht as (r & -> & Hr). by apply (H2 r).
Qed.

(** X17.  Where [get_lostdate] fails apart from a missing table: a table
    without rows raises [IndexError] at [tbl[0]], and a market that is
    not open raises [KeyError], or [NameError] when the bare name
    [NoSuchNodeError] of the [except] clause is not bound. *)
Theorem get_lostdate_failures code db :
  (∀ fp, db !! prefix2 (upper code) = Some fp →
         tables (MIN5 fp) !! upper code = Some [] →
         get_lostdate (Some code) db = (Exc IndexError, db)) ∧
  (db !! prefix2 (upper code) = None →
   get_lostdate (Some code) db
   = (Exc (if tools_NoSuchNodeError then KeyError else NameError), db)).
Proof.
  split.
  - intros fp Hfp Htbl. unfold get_lostdate, getNode. simpl.
    by rewrite Hfp, Htbl.
  - intros Hfp. unfold get_lostdate. simpl. rewrite Hfp.
    unfold lostdate_except. destruct tools_NoSuchNodeError; [|done].
    rewrite decide_False; [done|]. by intros [?|?].
Qed.

End GapsMore.

(** * Opening the files and updating from a feed *)

Section UpdateProps.
Context `{Tools} `{Feed}.

(** A loop whose turns return and keep [I] returns and keeps [I],
    whatever it accumulates. *)
Lemma for_each_returns {A S} (body : S → A → M S) (I : DB → Prop)
    (l : list A) :
  (∀ acc x db, I db → ∃ acc' db', body acc x db = (Val acc', db') ∧ I db') →
  ∀ acc db, I db →
    ∃ acc' db', for_each body acc l db = (Val acc', db') ∧ I db'.
Proof.
  intros Hbody. induction l as [|x l IH]; intros acc db HI.
  - by exists acc, db.
  - destruct (Hbody acc x db HI) as (acc1 & db1 & Hrun & HI1).
    destruct (IH acc1 db1 HI1) as (acc' & db' & Hrest & HI').
    exists acc', db'. split; [|done].
    simpl. by rewrite (bind_Val _ _ _ _ _ Hrun).
Qed.

Lemma dad_file_returns today fn data_type db :
  stores_open db →
  ∃ db', dad_file today fn data_type db = (Val (Some fn), db') ∧
         stores_open db'.
Proof.
  intros Hopen. unfold dad_file.
  destruct (iter_parser fn) as [data_source|]; [|by exists db].
  destruct (append_quote_returns today data_type data_source db Hopen)
    as (count & db' & Hrun & Hopen').
  exists db'. by rewrite (bind_Val _ _ _ _ _ Hrun).
Qed.

(** The day loop returns with every market open; [fn] is bound at the
    end exactly when there was a day. *)
Lemma day_loop_returns today dad_path days :
  ∀ fn db, stores_open db →
  ∃ fn' db',
    for_each (λ (fn : option string) day,
        for_each (λ _ (src : string * DataType), dad_file today src.1 src.2)
          fn [(path_join dad_path (day +:+ ".dad"), TYPE_DAILY);
              (path_join dad_path (day +:+ "m.dad"), TYPE_MIN5)])
      fn days db = (Val fn', db') ∧
    stores_open db' ∧
    (days = [] → fn' = fn) ∧ (days ≠ [] → is_Some fn').
Proof.
  induction days as [|day days IH]; intros fn db Hopen.
  - by exists fn, db.
  - destruct (dad_file_returns today
                (path_join dad_path (day +:+ ".dad")) TYPE_DAILY db Hopen)
      as (db1 & Hrun1 & Hopen1).
    destruct (dad_file_returns today
                (path_join dad_path (day +:+ "m.dad")) TYPE_MIN5 db1 Hopen1)
      as (db2 & Hrun2 & Hopen2).
    destruct (IH (Some (path_join dad_path (day +:+ "m.dad"))) db2 Hopen2)
      as (fn' & db' & Hrest & Hopen' & Hnil & Hcons).
    exists fn', db'. split; [|split; [done|split; [done|]]].
    + simpl. simpl in Hrun1, Hrun2.
      rewrite (bind_Val _ _ db
                 (Some (path_join dad_path (day +:+ "m.dad"))) db2);
        [done|].
      rewrite (bind_Val _ _ _ _ _ Hrun1).
      by rewrite (bind_Val _ _ _ _ _ Hrun2).
    + intros _. destruct days; [rewrite Hnil by done; by eexists|].
      by apply Hcons.
Qed.

(** X18.  With every market open and a readable splits file, [dad2hd5]
    returns, whatever the day files hold or lack, and the [/SPLITS] group
    of every market carries [today]. *)
Theorem dad2hd5_returns_and_stamps_splits
    last_update today dad_path db lu data_source :
  stores_open db →
  last_update !! MK_SH = Some lu →
  iter_parser (path_join dad_path "split.pwr") = Some data_source →
  ∃ db',
    dad2hd5 last_update today dad_path db = (Val tt, db') ∧
    ∀ mk, mk ∈ MARKETS →
      ∃ fp', db' !! mk = Some fp' ∧ LAST_UPDATE (SPLITS fp') = today.
Proof.
  intros Hopen Hlu Hsplits. unfold dad2hd5. rewrite Hlu.
  destruct (day_loop_returns today dad_path
              (drop 1 (get_workingdays_from lu)) None db Hopen)
    as (fn & db1 & Hloop & Hopen1 & _).
  rewrite (bind_Val _ _ _ _ _ Hloop). rewrite Hsplits.
  destruct (splits_call_sets_today today data_source true db1)
    as (count & db' & Hrun & _ & Hset); [done|by left|].
  exists db'. by rewrite (bind_Val _ _ _ _ _ Hrun).
Qed.

(** X19.  When the splits file cannot be read, [dad2hd5] ends in its
    last log line, which names [fn]: with no new working day [fn] was
    never bound and the call raises [NameError] with nothing written;
    with at least one new day it returns. *)
Theorem dad2hd5_unreadable_splits last_update today dad_path db lu :
  stores_open db →
  last_update !! MK_SH = Some lu →
  iter_parser (path_join dad_path "split.pwr") = None →
  (drop 1 (get_workingdays_from lu) = [] →
     dad2hd5 last_update today dad_path db = (Exc NameError, db)) ∧
  (drop 1 (get_workingdays_from lu) ≠ [] →
     ∃ db', dad2hd5 last_update today dad_path db = (Val tt, db')).
Proof.
  intros Hopen Hlu Hsplits. unfold dad2hd5. rewrite Hlu. split.
  - intros ->. simpl. by rewrite Hsplits.
  - intros Hdays.
    destruct (day_loop_returns today dad_path
                (drop 1 (get_workingdays_from lu)) None db Hopen)
      as (fn & db1 & Hloop & _ & _ & Hsome).
    rewrite (bind_Val _ _ _ _ _ Hloop). rewrite Hsplits.
    destruct (Hsome Hdays) as [fn' ->]. by exists db1.
Qed.

(** X20.  [dad2hd5] only ever appends: whether it returns or raises,
    every table that was stored is still stored, with its old rows at the
    front. *)
Theorem dad2hd5_only_appends last_update today dad_path db :
  tables_extend db (dad2hd5 last_update today dad_path db).2.
Proof.
  unfold dad2hd5. destruct (last_update !! MK_SH) as [lu|]; [|done].
  apply (bind_rel tables_extend).
  - apply (for_each_rel tables_extend). intros fn day d _.
    apply (for_each_rel tables_extend). intros fn' [src t] d' _.
    unfold dad_file. simpl. destruct (iter_parser src); [|done].
    apply (bind_rel tables_extend); [apply append_quote_extends|done].
  - intros fn d. destruct (iter_parser _).
    + apply (bind_rel tables_extend); [apply append_quote_extends|done].
    + by destruct fn.
Qed.

Lemma init_spec (disk : gmap string File) :
  (init disk).1 !! "SH" = disk !! "data_sh.h5" ∧
  (init disk).1 !! "SZ" = disk !! "data_sz.h5" ∧
  (∀ mk, mk ∉ MARKETS → (init disk).1 !! mk = None) ∧
  (∀ mk, (init disk).2 !! mk
         = root_LAST_UPDATE <$> ((init disk).1 !! mk)) ∧
  (stores_open (init disk).1 ↔
     is_Some (disk !! "data_sh.h5") ∧ is_Some (disk !! "data_sz.h5")).
Proof.
  assert (Hsh : (init disk).1 !! "SH" = disk !! "data_sh.h5").
  { unfold init, hd5_fn. simpl.
    destruct (disk !! "data_sh.h5"), (disk !! "data_sz.h5"); simpl;
      by rewrite ?lookup_insert_ne, ?lookup_insert_eq by done. }
  assert (Hsz : (init disk).1 !! "SZ" = disk !! "data_sz.h5").
  { unfold init, hd5_fn. simpl.
    destruct (disk !! "data_sh.h5"), (disk !! "data_sz.h5"); simpl;
      by rewrite ?lookup_insert_eq, ?lookup_insert_ne by done. }
  split; [done|]. split; [done|]. split; [|split].
  - intros mk Hmk. unfold MARKETS in Hmk.
    apply not_elem_of_cons in Hmk as [Hsh' Hmk].
    apply not_elem_of_cons in Hmk as [Hsz' _].
    unfold init, hd5_fn. simpl.
    destruct (disk !! "data_sh.h5"), (disk !! "data_sz.h5"); simpl;
      by rewrite ?lookup_insert_ne by done.
  - intros mk. unfold init, hd5_fn. simpl.
    destruct (disk !! "data_sh.h5"), (disk !! "data_sz.h5"); simpl;
      (destruct (decide (mk = "SZ")) as [->|?];
       [|destruct (decide (mk = "SH")) as [->|?]]);
      repeat (rewrite lookup_insert_eq || rewrite lookup_insert_ne by done);
      by rewrite ?lookup_empty.
  - unfold stores_open. split.
    + intros Hopen. rewrite <-Hsh, <-Hsz.
      split; apply Hopen; unfold MARKETS; rewrite !elem_of_cons; auto.
    + intros [H1 H2] mk Hmk. unfold MARKETS in Hmk.
      apply elem_of_cons in Hmk as [->|Hmk]; [by rewrite Hsh|].
      apply elem_of_cons in Hmk as [->|Hmk]; [by rewrite Hsz|].
      by apply elem_of_nil in Hmk.
Qed.

(** X21.  [__init__] opens exactly the markets whose file exists, never
    fails for a missing file, and records for each open market the root
    [LAST_UPDATE] the file has at that moment. *)
Theorem init_opens_existing_files (disk : gmap string File) :
  (init disk).1 !! "SH" = disk !! "data_sh.h5" ∧
  (init disk).1 !! "SZ" = disk !! "data_sz.h5" ∧
  (∀ mk, mk ∉ MARKETS → (init disk).1 !! mk = None) ∧
  (∀ mk, (init disk).2 !! mk
         = root_LAST_UPDATE <$> ((init disk).1 !! mk)) ∧
  (stores_open (init disk).1 ↔
     is_Some (disk !! "data_sh.h5") ∧ is_Some (disk !! "data_sz.h5")).
Proof. apply init_spec. Qed.

(** X22.  An update needs [data_sh.h5]: without it, [dad2hd5] raises
    [KeyError] on [self._last_update] before any file of the feed is read,
    also when [data_sz.h5] is open. *)
Theorem update_without_sh_raises (disk : gmap string File)
    today dad_path :
  disk !! "data_sh.h5" = None →
  update disk today dad_path = (Exc KeyError, (init disk).1).
Proof.
  intros Hsh. unfold update, dad2hd5.
  destruct (init_spec disk) as (H1 & _ & _ & Hlu & _).
  rewrite Hlu. unfold MK_SH. by rewrite H1, Hsh.
Qed.

End UpdateProps.

(** * More scenarios *)

Section MoreScenarios.
Import Sample SampleFeed.
Local Existing Instance tools.

Local Ltac decide_now := apply (bool_decide_unpack _); vm_compute; exact I.

(** A batch of three items, one of an unknown market and one without
    rows: three seen, one appended. *)
Lemma scenario_tally_of_mixed_batch :
  ∃ count db',
    _append_quote "20240102" TYPE_DAILY
      [("SH600000", [bar 100 1]); ("XX000001", [bar 100 1]);
       ("SH600001", [])] true new_db = (Val count, db') ∧
    count.1 = 3 ∧ 0 ≤ count.2 ≤ count.1.
Proof.
  destruct (_append_quote "20240102" TYPE_DAILY
              [("SH600000", [bar 100 1]); ("XX000001", [bar 100 1]);
               ("SH600001", [])] true new_db) as [[count|e] db'] eqn:E.
  - exists count, db'. split; [reflexivity|].
    exact (append_quote_tally _ _ _ _ _ _ _ E).
  - vm_compute in E. discriminate.
Defined.

(** A daily batch without index code leaves the watermark 200. *)
Lemma scenario_plain_batch_keeps_attrs :
  same_attrs (db_with "200" ∅)
    (_append_quote "20240102" TYPE_DAILY
       [("SH600000", [bar 300 1]); ("SZ000002", [bar 300 1])] true
       (db_with "200" ∅)).2.
Proof.
  apply append_quote_without_index_keeps_attrs.
  - discriminate.
  - repeat constructor; decide_now.
Defined.

Lemma scenario_checked_call_returns :
  ∃ count db',
    _append_quote "20240102" TYPE_MIN5
      [("SH000001", [bar 100 1]); ("SZ399001", [])] true new_db
      = (Val count, db') ∧
    stores_open db'.
Proof. apply append_quote_checked_returns, db_with_open. Defined.

(** An SZ code on a store opened without [data_sz.h5]. *)
Lemma scenario_closed_market_raises :
  _append_quote "20240102" TYPE_DAILY
    [("SZ000002", [bar 100 1]); ("SH600000", [bar 100 1])] true
    (db_two_groups [])
  = (Exc KeyError, db_two_groups []).
Proof.
  apply append_quote_closed_market_raises.
  - decide_now.
  - vm_compute. reflexivity.
Defined.

Lemma scenario_empty_unordered_index_raises :
  ∃ db',
    _append_quote "20240102" TYPE_DAILY
      [("SH000001", []); ("SH600000", [bar 100 1])] false new_db
      = (Exc IndexError, db') ∧
    table_of db' "SH" TYPE_DAILY "SH000001" = Some [] ∧
    table_of db' "SH" TYPE_DAILY "SH600000" = None.
Proof.
  destruct (append_quote_empty_unordered_index_raises "20240102" TYPE_DAILY
              "SH000001" [("SH600000", [bar 100 1])] new_db new_sh)
    as (db' & Hrun & Htbl & _).
  - decide_now.
  - apply db_with_SH.
  - pose proof Hrun as Hdb. vm_compute in Hdb. injection Hdb as Hdb.
    exists db'. split; [exact Hrun|]. split; [exact Htbl|].
    rewrite <-Hdb. vm_compute. reflexivity.
Defined.

Lemma scenario_splits_without_sz :
  ∃ db' fp',
    _append_quote "20240102" TYPE_SPLITS
      [("SH600000", [DescSPLITS 1 1 0 0 0])] true (db_two_groups [])
      = (Exc KeyError, db') ∧
    db' !! "SH" = Some fp' ∧ LAST_UPDATE (SPLITS fp') = "20240102".
Proof.
  destruct (splits_call_without_sz_raises_after_sh "20240102"
              [("SH600000", [DescSPLITS 1 1 0 0 0])] (db_two_groups [])
              (mkFile EmptyString
                 (mkGroup EmptyString (<["SH600000" := []]> ∅))
                 (mkGroup EmptyString (<["SH600000" := []]> ∅))
                 (mkGroup EmptyString ∅)))
    as (db' & fp' & Hrun & Hsh & Hlu & _).
  - vm_compute. reflexivity.
  - vm_compute. reflexivity.
  - repeat constructor. vm_compute. discriminate.
  - by exists db', fp'.
Defined.

Lemma scenario_read_after_append :
  ∃ count' db',
    append_body TYPE_DAILY true (0, 0)
      ("sh600000", [bar 100 1; bar 300 1]) (db_with "200" ∅)
      = (Val count', db') ∧
    read "sh600000" TYPE_DAILY db' = (Val (Some [bar 300 1]), db').
Proof.
  destruct (read_after_append TYPE_DAILY true (0, 0) "sh600000"
              [bar 100 1; bar 300 1] (db_with "200" ∅) (sh_file "200" ∅))
    as (count' & db' & Hrun & Hread).
  - decide_now.
  - apply db_with_SH.
  - vm_compute. discriminate.
  - exists count', db'. split; [exact Hrun|exact Hread].
Defined.

(** Two items for SH600000 in one batch against cutoff 200: the rows
    at 300 and then at 250 are stored, in batch order. *)
Lemma scenario_batch_rows :
  ∃ count db',
    _append_quote "20240102" TYPE_DAILY
      [("sh600000", [bar 100 1; bar 300 1]); ("SZ000002", [bar 300 2]);
       ("SH600000", [bar 250 3])] true (db_with "200" ∅)
      = (Val count, db') ∧
    table_of db' "SH" TYPE_DAILY "SH600000" = Some [bar 300 1; bar 250 3].
Proof.
  destruct (append_quote_batch_rows "20240102" TYPE_DAILY
              [("sh600000", [bar 100 1; bar 300 1]); ("SZ000002", [bar 300 2]);
               ("SH600000", [bar 250 3])]
              (db_with "200" ∅) "SH600000" (sh_file "200" ∅))
    as (count & db' & Hrun & Htbl).
  - discriminate.
  - repeat constructor; decide_now.
  - apply db_with_open.
  - decide_now.
  - apply db_with_SH.
  - exists count, db'. split; [exact Hrun|].
    etrans; [exact Htbl|]. vm_compute. reflexivity.
Defined.

(** A request with an SZ code on a store opened without
    [data_sz.h5]. *)
Lemma scenario_extract_closed_market :
  extract ["SH600000"; "sz000002"] (db_two_groups [bar 100 1])
  = (Exc KeyError, db_two_groups [bar 100 1]).
Proof.
  destruct (extract_outcome ["SH600000"; "sz000002"]
              (db_two_groups [bar 100 1])) as (_ & _ & Hclosed).
  apply Hclosed. apply Exists_exists. exists "SZ000002".
  split; [decide_now|]. vm_compute. reflexivity.
Defined.

Lemma scenario_extract_destination :
  ∃ dst_fp count,
    extract ["sh600000"; "XX123456"] (db_two_groups [bar 100 1])
      = (Val (Some (dst_fp, count)), db_two_groups [bar 100 1]) ∧
    tables (DAILY dst_fp) !! "SH600000" = Some [bar 100 1] ∧
    tables (SPLITS dst_fp) !! "SH600000" = None ∧
    tables (DAILY dst_fp) !! "XX123456" = None.
Proof.
  assert (E : ∃ dst_fp,
    extract ["sh600000"; "XX123456"] (db_two_groups [bar 100 1])
    = (Val (Some (dst_fp, (1, 2))), db_two_groups [bar 100 1]))
    by (eexists; vm_compute; reflexivity).
  destruct E as [dst_fp E].
  destruct (extract_destination _ _ _ _ _ E) as [_ Htbl].
  exists dst_fp, (1, 2). split; [exact E|].
  split; [|split].
  - etrans; [apply (Htbl TYPE_DAILY "SH600000")|]. vm_compute. reflexivity.
  - etrans; [apply (Htbl TYPE_SPLITS "SH600000")|]. vm_compute. reflexivity.
  - etrans; [apply (Htbl TYPE_DAILY "XX123456")|]. vm_compute. reflexivity.
Defined.

Lemma scenario_extract_tally :
  ∃ dst_fp count,
    extract ["sh600000"; "SH600000"; "XX123456"]
      (db_two_groups [bar 100 1])
      = (Val (Some (dst_fp, count)), db_two_groups [bar 100 1]) ∧
    count.1 = 2 ∧ count.2 = 4.
Proof.
  assert (E : ∃ dst_fp count,
    extract ["sh600000"; "SH600000"; "XX123456"]
      (db_two_groups [bar 100 1])
    = (Val (Some (dst_fp, count)), db_two_groups [bar 100 1]))
    by (eexists _, _; vm_compute; reflexivity).
  destruct E as (dst_fp & count & E).
  destruct (extract_tally _ _ _ _ _ E) as (Hseen & Hcopied & _).
  exists dst_fp, count. split; [exact E|]. split.
  - rewrite Hseen. vm_compute. reflexivity.
  - rewrite Hcopied. vm_compute. reflexivity.
Defined.

(** Rows on days 1 and 3 of the SH index: day 2 is lost. *)
Lemma scenario_lost_day :
  ∃ lost,
    get_lostdate (Some "sh000001") (db_min5 [bar 1 0; bar 3 0])
      = (Val (Some lost), db_min5 [bar 1 0; bar 3 0]) ∧
    sublist lost ["1"; "2"; "3"] ∧
    "2" ∈ lost.
Proof.
  destruct (get_lostdate_reports_missing_days "sh000001"
              (db_min5 [bar 1 0; bar 3 0])
              (mkFile EmptyString (mkGroup EmptyString ∅)
                 (mkGroup EmptyString
                    (<["SH000001" := [bar 1 0; bar 3 0]]> ∅))
                 (mkGroup EmptyString ∅))
              [bar 1 0; bar 3 0] (bar 1 0) (bar 3 0))
    as (lost & Hrun & Hsub & Hlost).
  - vm_compute. reflexivity.
  - vm_compute. reflexivity.
  - reflexivity.
  - reflexivity.
  - exists lost. split; [exact Hrun|]. split; [exact Hsub|].
    apply Hlost. split.
    + vm_compute. apply list_elem_of_further, list_elem_of_here.
    + intros r Hr. apply elem_of_cons in Hr as [->|Hr];
        [vm_compute; discriminate|].
      apply elem_of_cons in Hr as [->|Hr]; [vm_compute; discriminate|].
      by apply elem_of_nil in Hr.
Defined.

(** The SH index has a [/MIN5] table without rows. *)
Lemma scenario_lostdate_empty_table :
  get_lostdate (Some "sh000001") (db_min5 [])
  = (Exc IndexError, db_min5 []).
Proof.
  destruct (get_lostdate_failures "sh000001" (db_min5 [])) as [Hempty _].
  eapply Hempty; vm_compute; reflexivity.
Defined.

(** An update from the feed directory [dad], files opened at watermark
    1: day 2 is read and the splits are stamped. *)
Lemma scenario_update_from_feed :
  ∃ db',
    @dad2hd5 tools feed (<["SH" := "1"]> ∅) "20240102" "dad" new_db
      = (Val tt, db') ∧
    ∀ mk, mk ∈ MARKETS →
      ∃ fp', db' !! mk = Some fp' ∧ LAST_UPDATE (SPLITS fp') = "20240102".
Proof.
  apply (@dad2hd5_returns_and_stamps_splits tools feed
           (<["SH" := "1"]> ∅) "20240102" "dad" new_db "1"
           [("SH600000", [DescSPLITS 1 1 0 0 0])]).
  - apply db_with_open.
  - reflexivity.
  - reflexivity.
Defined.

(** No new day and no splits file: the last log line fails. *)
Lemma scenario_update_without_feed :
  @dad2hd5 tools feed_down (<["SH" := "1"]> ∅) "20240102" "dad" new_db
  = (Exc NameError, new_db).
Proof.
  destruct (@dad2hd5_unreadable_splits tools feed_down
              (<["SH" := "1"]> ∅) "20240102" "dad" new_db "1")
    as [Hnone _].
  - apply db_with_open.
  - reflexivity.
  - reflexivity.
  - apply Hnone. reflexivity.
Defined.

(** Only [data_sz.h5] is on disk. *)
Lemma scenario_update_without_sh :
  (@update tools feed (<["data_sz.h5" := create_hd5]> ∅) "20240102" "dad").1
  = Exc KeyError.
Proof.
  rewrite (@update_without_sh_raises tools feed
             (<["data_sz.h5" := create_hd5]> ∅) "20240102" "dad");
    reflexivity.
Defined.

End MoreScenarios.
